(** * Emergent coding assistant: the chat front end and the generation core

    The first half embeds the two network handlers of
    [frontend/src/components.js] ([handleSendMessage] of the dashboard and
    [executeCode] of a chat message) together with the little of JavaScript
    they rely on: values and truthiness, property access, template
    literals, [String.prototype.trim] and [JSON.stringify].

    The second half models the Orchestration and Execution Core
    (adapters, fallback templates, router, selector, materializer).  That
    part of the repository is not among the sources at hand, so it is
    modelled from the design document; those definitions say so. *)

From stdpp Require Import base option list strings pretty gmap sorting.

Local Set Warnings "-register-all".
Local Open Scope string_scope.
Local Open Scope list_scope.

(** ** JavaScript values *)

Module JS.

(** Values that reach the handlers: JSON documents returned by the back
    end, strings typed by the user, and [undefined] for a missing property.
    A number is an integer that a double holds exactly, as the integral
    numbers of a parsed document are; objects keep their properties in
    insertion order and own each key once. *)
Inductive Value : Type :=
| Undefined
| Null
| Bool (b : bool)
| Num (n : Z)
| Str (s : string)
| Arr (items : list Value)
| Obj (props : list (string * Value)).

(** Errors that can be thrown: a rejected promise of [fetch] or of
    [response.json()], and the TypeError of reading a property of
    [undefined] or [null] or of converting an object that cannot be
    converted to a string.  Each carries its message; the text of a
    TypeError is V8's. *)
Inductive Error : Type :=
| Rejected (message : string)
| TypeError (message : string).

(** [error.message] *)
Definition error_message (e : Error) : string :=
  match e with
  | Rejected m => m
  | TypeError m => m
  end.

Inductive Exn (A : Type) : Type :=
| Returned (a : A)
| Thrown (e : Error).
Arguments Returned {A} a.
Arguments Thrown {A} e.

Definition bind {A B} (m : Exn A) (k : A -> Exn B) : Exn B :=
  match m with
  | Returned a => k a
  | Thrown e => Thrown e
  end.

Declare Scope js_scope.
Delimit Scope js_scope with js.
Notation "x <- m ;; k" := (bind m (fun x => k))
  (at level 100, m at next level, right associativity) : js_scope.

(** ToBoolean. *)
Definition truthy (v : Value) : bool :=
  match v with
  | Undefined | Null => false
  | Bool b => b
  | Num n => negb (n =? 0)%Z
  | Str s => negb (String.eqb s "")
  | Arr _ | Obj _ => true
  end.

Definition nullish (v : Value) : bool :=
  match v with
  | Undefined | Null => true
  | _ => false
  end.

(** [a || b] on values. *)
Definition or_else (a b : Value) : Value := if truthy a then a else b.

Fixpoint lookup_prop (k : string) (props : list (string * Value)) : Value :=
  match props with
  | [] => Undefined
  | (k', v) :: rest => if String.eqb k k' then v else lookup_prop k rest
  end.

(** The TypeError of reading property [k] of [v], which is [undefined]
    or [null]. *)
Definition cannot_read (v : Value) (k : string) : Error :=
  TypeError ("Cannot read properties of " +:+
             (match v with Null => "null" | _ => "undefined" end) +:+
             " (reading '" +:+ k +:+ "')").

(** [v.k].  The handlers only read [success], [response], [model_used],
    [code], [language], [explanation], [error], [output], [project_id],
    [project_name] and [files_created]; none of them is a built-in
    property of a string, number, boolean or array, or inherited by an
    object, so the read gives [undefined] on the former and on an object
    that does not own the key. *)
Definition get (v : Value) (k : string) : Exn Value :=
  match v with
  | Undefined | Null => Thrown (cannot_read v k)
  | Obj props => Returned (lookup_prop k props)
  | _ => Returned Undefined
  end.

(** [v?.k]. *)
Definition get_opt (v : Value) (k : string) : Exn Value :=
  if nullish v then Returned Undefined else get v k.

Fixpoint join (sep : string) (parts : list string) : string :=
  match parts with
  | [] => ""
  | [p] => p
  | p :: rest => p +:+ sep +:+ join sep rest
  end.

Definition reverse (s : string) : string :=
  String.string_of_list_ascii (List.rev (String.list_ascii_of_string s)).

(** *** [Number::toString] on integers

    A double at or above 2^53 is printed with the fewest digits that
    still read back as that double, padded with zeros, and in exponent
    form from 10^21 on. *)

(** The double nearest to [x], for [x] of more than 53 bits: its
    significand, in 2^52 .. 2^53 - 1, and its exponent.  A tie goes to
    the even significand. *)
Definition nearest_double (x : Z) : Z * Z :=
  let e := (Z.log2 x + 1 - 53)%Z in
  let q := Z.shiftr x e in
  let r := (x - Z.shiftl q e)%Z in
  let half := Z.shiftl 1 (e - 1) in
  let m := if (half <? r)%Z || ((r =? half)%Z && Z.odd q)
           then (q + 1)%Z else q in
  if (m =? 2 ^ 53)%Z then ((2 ^ 52)%Z, (e + 1)%Z) else (m, e).

(** The multiple of the largest power of ten [p] that reads back as the
    double [v]: one between the halfway points [lo2 / 2] and [hi2 / 2] to
    the neighbouring doubles (the points themselves count when the
    significand is even), and of the two around [v] the nearer one.  [p]
    goes down from the power of ten of [v]'s first digit; at [p = 1] the
    multiple is [v] itself. *)
Fixpoint shortest (fuel : nat) (p v lo2 hi2 : Z) (closed : bool) : Z :=
  match fuel with
  | O => v
  | S fuel' =>
      let c1 := (v / p * p)%Z in
      let c2 := (c1 + p)%Z in
      let ok := fun c : Z =>
        if closed then (lo2 <=? 2 * c)%Z && (2 * c <=? hi2)%Z
        else (lo2 <? 2 * c)%Z && (2 * c <? hi2)%Z in
      if ok c1 && ok c2 then
        if (v - c1 <? c2 - v)%Z then c1
        else if (c2 - v <? v - c1)%Z then c2
        else if Z.even (v / p) then c1 else c2
      else if ok c1 then c1
      else if ok c2 then c2
      else shortest fuel' (p / 10)%Z v lo2 hi2 closed
  end.

Definition zero_digit : Ascii.ascii := Eval cbv in Ascii.ascii_of_nat 48.

Fixpoint drop_zeros (s : string) : string :=
  match s with
  | String c s' => if Ascii.eqb c zero_digit then drop_zeros s' else s
  | EmptyString => EmptyString
  end.

(** The digits of an integer of more than 21 digits in exponent form:
    [d.ddde+n]. *)
Definition exponent_form (digits : string) : string :=
  match reverse (drop_zeros (reverse digits)) with
  | String c rest =>
      String c (if String.eqb rest "" then "" else "." +:+ rest) +:+
      "e+" +:+ pretty (String.length digits - 1)%nat
  | EmptyString => digits
  end.

Definition print_double (x : Z) : string :=
  if (Z.log2 x + 1 <=? 53)%Z then pretty x else
  let '(m, e) := nearest_double x in
  if (1024 <? e + 53)%Z then "Infinity" else
  let v := Z.shiftl m e in
  let lo2 := (2 * v - (if (m =? 2 ^ 52)%Z then Z.shiftl 1 (e - 1)
                       else Z.shiftl 1 e))%Z in
  let hi2 := (2 * v + Z.shiftl 1 e)%Z in
  let d := String.length (pretty v) in
  let c := shortest d (10 ^ Z.of_nat (d - 1))%Z v lo2 hi2 (Z.even m) in
  let digits := pretty c in
  if (String.length digits <=? 21)%nat then digits else exponent_form digits.

Definition Number_toString (n : Z) : string :=
  if (n <? 0)%Z then "-" +:+ print_double (- n) else print_double n.

(** *** ToString *)

Definition owns (k : string) (props : list (string * Value)) : bool :=
  existsb (fun kv => String.eqb k (fst kv)) props.

(** Whether ToString returns.  An object is converted by the [toString]
    it inherits unless it owns a property of that name, which in a parsed
    document is never a function: then neither it nor the inherited
    [valueOf] yields a primitive, and the conversion throws.  An array is
    joined from its elements, so it throws when one of them does. *)
Fixpoint converts (v : Value) : bool :=
  match v with
  | Arr items => List.forallb converts items
  | Obj props => negb (owns "toString" props)
  | _ => true
  end.

(** The string ToString gives where it returns (see [converts]).  The
    handlers' message texts go through [interpolate] below; the bare
    function is for values that always convert, such as
    [process.env.REACT_APP_BACKEND_URL], a string or [undefined]. *)
Fixpoint ToString (v : Value) : string :=
  match v with
  | Undefined => "undefined"
  | Null => "null"
  | Bool true => "true"
  | Bool false => "false"
  | Num n => Number_toString n
  | Str s => s
  | Arr items =>
      join "," (List.map (fun x => if nullish x then "" else ToString x) items)
  | Obj _ => "[object Object]"
  end.

Definition cannot_convert : Error :=
  TypeError "Cannot convert object to primitive value".

(** [${v}] in a template literal: ToString, or its TypeError. *)
Definition interpolate (v : Value) : Exn string :=
  if converts v then Returned (ToString v) else Thrown cannot_convert.

(** [JSON.stringify], kept as the document tree it writes (the text
    encoding itself is not modelled): a property whose value is
    [undefined] is left out, an [undefined] array element becomes [null],
    and [JSON.stringify(undefined)] is [undefined]. *)
Fixpoint JSON_stringify (v : Value) : Value :=
  match v with
  | Arr items =>
      Arr (List.map (fun x => match x with
                              | Undefined => Null
                              | _ => JSON_stringify x
                              end) items)
  | Obj props =>
      Obj (List.fold_right
             (fun kv acc => match snd kv with
                            | Undefined => acc
                            | _ => (fst kv, JSON_stringify (snd kv)) :: acc
                            end) [] props)
  | _ => v
  end.

(** The property names of a document. *)
Definition fields (v : Value) : list string :=
  match v with
  | Obj props => List.map fst props
  | _ => []
  end.

(** *** [String.prototype.trim]

    Strings are held in UTF-8.  The characters [trim] removes are
    ECMAScript's WhiteSpace and LineTerminator code points, listed here
    by their encodings. *)
Definition utf8 (bytes : list nat) : string :=
  String.string_of_list_ascii (List.map Ascii.ascii_of_nat bytes).

Definition white_space : list string :=
  Eval cbv in
  List.map utf8
    [ [9]; [10]; [11]; [12]; [13]; [32]          (* TAB LF VT FF CR SP *)
    ; [194; 160]                                  (* U+00A0 *)
    ; [225; 154; 128]                             (* U+1680 *)
    ; [226; 128; 128]; [226; 128; 129]; [226; 128; 130]; [226; 128; 131]
    ; [226; 128; 132]; [226; 128; 133]; [226; 128; 134]; [226; 128; 135]
    ; [226; 128; 136]; [226; 128; 137]; [226; 128; 138]   (* U+2000..200A *)
    ; [226; 128; 168]; [226; 128; 169]            (* U+2028 U+2029 *)
    ; [226; 128; 175]                             (* U+202F *)
    ; [226; 129; 159]                             (* U+205F *)
    ; [227; 128; 128]                             (* U+3000 *)
    ; [239; 187; 191] ]%nat.                      (* U+FEFF *)

Fixpoint strip_prefix (p s : string) : option string :=
  match p, s with
  | EmptyString, _ => Some s
  | String a p', String b s' =>
      if Ascii.eqb a b then strip_prefix p' s' else None
  | String _ _, EmptyString => None
  end.

Fixpoint strip_any (ws : list string) (s : string) : option string :=
  match ws with
  | [] => None
  | w :: rest =>
      match strip_prefix w s with
      | Some s' => Some s'
      | None => strip_any rest s
      end
  end.

(** Drop leading white space; every step removes at least one byte, so
    the length of the string is fuel enough. *)
Fixpoint trim_from (ws : list string) (fuel : nat) (s : string) : string :=
  match fuel with
  | O => s
  | S fuel' =>
      match strip_any ws s with
      | Some s' => trim_from ws fuel' s'
      | None => s
      end
  end.

Definition trimStart (s : string) : string :=
  trim_from white_space (String.length s) s.

Definition trimEnd (s : string) : string :=
  reverse (trim_from (List.map reverse white_space) (String.length s) (reverse s)).

Definition trim (s : string) : string := trimEnd (trimStart s).

(** A string made of white space only. *)
Inductive white_only : string -> Prop :=
| white_nil : white_only ""
| white_cons w s : In w white_space -> white_only s -> white_only (w +:+ s).

End JS.

(** ** The front end: [frontend/src/components.js] *)

Module Frontend.
Import JS.
Local Open Scope js_scope.

(** One entry of the dashboard's [messages] state.  A property the object
    literal does not set reads as [undefined]. *)
Record Message : Type := {
  id : nat;
  message : string;
  isUser : bool;
  timestamp : string;
  isTyping : Value;
  code : Value;
  language : Value
}.

(** The second argument of [fetch], and the URL it goes to. *)
Record Request : Type := {
  url : string;
  method : string;
  headers : list (string * string);
  body : Value
}.

(** What awaiting [fetch] yields; [json] is the outcome of awaiting
    [response.json()]. *)
Record Response : Type := { json : Exn Value }.

(** An async handler over a component state [S]: it reads the clock
    ([new Date().toLocaleTimeString()]), queues state updates and awaits
    [fetch]. *)
Inductive Prog (S A : Type) : Type :=
| Ret (a : A)
| Now (k : string -> Prog S A)
| Update (f : S -> Exn S) (k : Prog S A)
| Await_fetch (r : Request) (k : Exn Response -> Prog S A).
Arguments Ret {S A} a.
Arguments Now {S A} k.
Arguments Update {S A} f k.
Arguments Await_fetch {S A} r k.

Fixpoint pbind {S A B} (p : Prog S A) (q : A -> Prog S B) : Prog S B :=
  match p with
  | Ret a => q a
  | Now k => Now (fun t => pbind (k t) q)
  | Update f k => Update f (pbind k q)
  | Await_fetch r k => Await_fetch r (fun o => pbind (k o) q)
  end.

Declare Scope prog_scope.
Delimit Scope prog_scope with prog.
Notation "x <- m ;; k" := (pbind m (fun x => k))
  (at level 100, m at next level, right associativity) : prog_scope.

Definition now {S} : Prog S string := Now Ret.
Definition update {S} (f : S -> Exn S) : Prog S unit := Update f (Ret tt).
Definition fetch {S} (r : Request) : Prog S (Exn Response) := Await_fetch r Ret.

(** The environment of a run: successive clock readings, the back end's
    answer to a request, and what other handlers do to the state while
    this one is suspended in an [await]. *)
Record World (S : Type) : Type := {
  clock : nat -> string;
  network : Request -> Exn Response;
  meanwhile : S -> S
}.
Arguments clock {S} w.
Arguments network {S} w.
Arguments meanwhile {S} w.

Record Outcome (S A : Type) : Type := {
  state : Exn S;
  sent : list Request;
  result : A
}.
Arguments state {S A} o.
Arguments sent {S A} o.
Arguments result {S A} o.

(** Running a handler.  An update function that throws leaves the
    component without a state. *)
Fixpoint run_from {S A} (w : World S) (p : Prog S A)
    (tick : nat) (s : Exn S) (log : list Request) : Outcome S A :=
  match p with
  | Ret a => {| state := s; sent := log; result := a |}
  | Now k => run_from w (k (clock w tick)) (Datatypes.S tick) s log
  | Update f k => run_from w k tick (bind s f) log
  | Await_fetch r k =>
      run_from w (k (network w r)) tick
        (bind s (fun x => Returned (meanwhile w x))) (log ++ [r])
  end.

Definition run {S A} (w : World S) (p : Prog S A) (s : S) : Outcome S A :=
  run_from w p 0 (Returned s) [].

(** *** The dashboard: [handleSendMessage] *)

(** The two state cells of [Dashboard] that the chat handler touches. *)
Record Dashboard : Type := {
  messages : list Message;
  inputMessage : string
}.

Definition setMessages (f : list Message -> Exn (list Message))
  : Prog Dashboard unit :=
  update (fun s => ms <- f (messages s);;
                   Returned {| messages := ms; inputMessage := inputMessage s |}).

Definition setInputMessage (v : string) : Prog Dashboard unit :=
  update (fun s => Returned {| messages := messages s; inputMessage := v |}).

Definition nl : string := Eval cbv in utf8 [10%nat].

Definition json_headers : list (string * string) :=
  [("Content-Type", "application/json")].

(** The request of [handleSendMessage]; [backend] is
    [process.env.REACT_APP_BACKEND_URL]. *)
Definition chat_request (backend : Value) (currentMessage : string) : Request :=
  {| url := ToString backend +:+ "/api/chat";
     method := "POST";
     headers := json_headers;
     body := JSON_stringify
               (Obj [ ("message", Str currentMessage)
                    ; ("user_id", Str "demo-user")
                    ; ("language", Str "python")
                    ; ("model", Str "auto") ]) |}.

(** [prev.filter(msg => !msg.isTyping)] *)
Definition withoutTyping (prev : list Message) : list Message :=
  List.filter (fun msg => negb (truthy (isTyping msg))) prev.

(** The update function queued once the reply [data] has arrived; [t] is
    the clock reading of its [new Date().toLocaleTimeString()].  It runs
    outside the handler's [try]: what it throws is not caught. *)
Definition onReply (data : Value) (t : string) (prev : list Message)
  : Exn (list Message) :=
  let withoutTyping := withoutTyping prev in
  success <- get data "success";;
  ok <- (if truthy success
         then response <- get data "response";;
              inner <- get response "success";;
              Returned (truthy inner)
         else Returned false);;
  if (ok : bool) then
    response <- get data "response";;
    model_used <- get response "model_used";;
    model_used_text <- interpolate model_used;;
    language <- get response "language";;
    language_text <- interpolate language;;
    code <- get response "code";;
    code_text <- interpolate code;;
    explanation <- get response "explanation";;
    explanation_text <- interpolate explanation;;
    let aiMessage :=
      {| id := length withoutTyping + 1;
         message :=
           "âœ¨ **Code Generated Successfully!**" +:+ nl +:+ nl +:+
           "**Model Used:** " +:+ model_used_text +:+ nl +:+ nl +:+
           "**Code:**" +:+ nl +:+ "```" +:+ language_text +:+ nl +:+
           code_text +:+ nl +:+ "```" +:+ nl +:+ nl +:+
           "**Explanation:** " +:+ explanation_text;
         isUser := false;
         timestamp := t;
         isTyping := Undefined;
         code := code;
         language := language |} in
    Returned (withoutTyping ++ [aiMessage])
  else
    response <- get data "response";;
    error <- get_opt response "error";;
    error_text <- interpolate (or_else error (Str "Failed to generate code"));;
    let errorMessage :=
      {| id := length withoutTyping + 1;
         message :=
           "âŒ Error: " +:+ error_text +:+
           nl +:+ nl +:+
           "Tip: Make sure AI API keys are configured in backend/.env";
         isUser := false;
         timestamp := t;
         isTyping := Undefined;
         code := Undefined;
         language := Undefined |} in
    Returned (withoutTyping ++ [errorMessage]).

(** The update function of the [catch] branch. *)
Definition onError (error : Error) (t : string) (prev : list Message)
  : Exn (list Message) :=
  let withoutTyping := withoutTyping prev in
  let errorMessage :=
    {| id := length withoutTyping + 1;
       message :=
         "âŒ Connection Error: " +:+ error_message error +:+ nl +:+ nl +:+
         "Please check if the backend is running.";
       isUser := false;
       timestamp := t;
       isTyping := Undefined;
       code := Undefined;
       language := Undefined |} in
  Returned (withoutTyping ++ [errorMessage]).

(** [handleSendMessage], closed over the [messages] and [inputMessage] of
    the render that created it.  The clock of an update function is read
    when the update is queued. *)
Definition handleSendMessage (backend : Value)
    (messages : list Message) (inputMessage : string) : Prog Dashboard unit :=
  if negb (truthy (Str (trim inputMessage))) then Ret tt else
  (t1 <- now;;
   let userMessage :=
     {| id := length messages + 1;
        message := inputMessage;
        isUser := true;
        timestamp := t1;
        isTyping := Undefined;
        code := Undefined;
        language := Undefined |} in
   _ <- setMessages (fun prev => Returned (prev ++ [userMessage]));;
   let currentMessage := inputMessage in
   _ <- setInputMessage "";;
   t2 <- now;;
   let typingMessage :=
     {| id := length messages + 2;
        message := "ðŸ¤– AI is generating code...";
        isUser := false;
        timestamp := t2;
        isTyping := Bool true;
        code := Undefined;
        language := Undefined |} in
   _ <- setMessages (fun prev => Returned (prev ++ [typingMessage]));;
   response <- fetch (chat_request backend currentMessage);;
   match bind response json with
   | Returned data => t3 <- now;; setMessages (onReply data t3)
   | Thrown error => t3 <- now;; setMessages (onError error t3)
   end)%prog.

(** *** A chat message: [executeCode] and the result pane *)

Definition execute_request (backend code language : Value) : Request :=
  {| url := ToString backend +:+ "/api/execute";
     method := "POST";
     headers := json_headers;
     body := JSON_stringify
               (Obj [ ("code", code)
                    ; ("language", or_else language (Str "python"))
                    ; ("user_id", Str "demo-user") ]) |}.

(** The component state is [executionResult]. *)
Definition setExecutionResult (v : Value) : Prog Value unit :=
  update (fun _ => Returned v).

Definition executeCode (backend code language : Value) : Prog Value unit :=
  (response <- fetch (execute_request backend code language);;
   match bind response json with
   | Returned result => setExecutionResult result
   | Thrown error =>
       setExecutionResult
         (Obj [ ("success", Bool false)
              ; ("error", Str (error_message error)) ])
   end)%prog.

(** The effect keeps [showExecuteButton] at [!!code && !isUser]; the Run
    Code button, whose [onClick] is [executeCode], is rendered only then. *)
Definition showExecuteButton (code : Value) (isUser : bool) : bool :=
  truthy code && negb isUser.

Definition onClick (backend code language : Value) (isUser : bool)
  : option (Prog Value unit) :=
  if showExecuteButton code isUser
  then Some (executeCode backend code language)
  else None.

(** What the JSX under "Execution Result" hands to React: the falsy
    [executionResult] itself while there is none, else a green pane with
    one child or a red pane with the text [Error: ] and one child. *)
Inductive Pane : Type :=
| NoPane (falsy : Value)
| OutputPane (child : Value)
| ErrorPane (label : string) (child : Value).

Definition executionResultPane (executionResult : Value) : Exn Pane :=
  if truthy executionResult then
    success <- get executionResult "success";;
    if truthy success then
      output <- get executionResult "output";;
      Returned (OutputPane
                  (or_else output (Str "Code executed successfully (no output)")))
    else
      error <- get executionResult "error";;
      Returned (ErrorPane "Error: " error)
  else Returned (NoPane executionResult).

(** *** Vocabulary for the handlers' contracts *)

(** [v.k] where the read cannot fail, [undefined] where it would throw. *)
Definition read (v : Value) (k : string) : Value :=
  match get v k with
  | Returned x => x
  | Thrown _ => Undefined
  end.

(** The replies on which [data.success && data.response.success] can be
    evaluated: [data] is not nullish, and neither is [data.response] when
    [data.success] is truthy. *)
Definition readable (data : Value) : bool :=
  negb (nullish data) &&
  (negb (truthy (read data "success")) || negb (nullish (read data "response"))).

(** Whether the reply counts as generated code. *)
Definition generated (data : Value) : bool :=
  truthy (read data "success") &&
  truthy (read (read data "response") "success").

(** The replies the update function can answer: the success test can be
    evaluated, and every value the answer's text is made of can be
    converted to a string. *)
Definition presentable (data : Value) : bool :=
  readable data &&
  (let response := read data "response" in
   if generated data
   then converts (read response "model_used") &&
        converts (read response "language") &&
        converts (read response "code") &&
        converts (read response "explanation")
   else converts (or_else (read response "error")
                    (Str "Failed to generate code"))).

(** Text, or a field left out. *)
Definition text (v : Value) : bool :=
  match v with
  | Str _ | Undefined => true
  | _ => false
  end.

(** A reply of the declared shape [{success, response: {success,
    model_used, code, language, explanation} | {success: false, error}}]:
    [success] is a boolean, [response] an object whose [success] is a
    boolean and whose other fields are text; a reply that reports failure
    may leave [response] out. *)
Definition declared (data : Value) : bool :=
  match data with
  | Obj props =>
      match lookup_prop "success" props, lookup_prop "response" props with
      | Bool _, Obj rprops =>
          match lookup_prop "success" rprops with
          | Bool _ =>
              text (lookup_prop "model_used" rprops) &&
              text (lookup_prop "code" rprops) &&
              text (lookup_prop "language" rprops) &&
              text (lookup_prop "explanation" rprops) &&
              text (lookup_prop "error" rprops)
          | _ => false
          end
      | Bool false, Undefined => true
      | _, _ => false
      end
  | _ => false
  end.

(** The texts of the two kinds of answer. *)
Definition generated_text (model_used language code explanation : Value)
  : string :=
  "âœ¨ **Code Generated Successfully!**" +:+ nl +:+ nl +:+
  "**Model Used:** " +:+ ToString model_used +:+ nl +:+ nl +:+
  "**Code:**" +:+ nl +:+ "```" +:+ ToString language +:+ nl +:+
  ToString code +:+ nl +:+ "```" +:+ nl +:+ nl +:+
  "**Explanation:** " +:+ ToString explanation.

Definition failed_text (error : Value) : string :=
  "âŒ Error: " +:+
  ToString (or_else error (Str "Failed to generate code")) +:+
  nl +:+ nl +:+
  "Tip: Make sure AI API keys are configured in backend/.env".

(** The declared contract of a [/api/chat] reply, read off its shape
    [{success, response: {success, model_used, code, language, explanation}
    | {success: false, error}}]: the message numbered [n] that answers
    [data] at time [t]. *)
Definition answer (data : Value) (t : string) (n : nat) : Message :=
  let response := read data "response" in
  if generated data then
    {| id := n;
       message := generated_text (read response "model_used")
                    (read response "language") (read response "code")
                    (read response "explanation");
       isUser := false;
       timestamp := t;
       isTyping := Undefined;
       code := read response "code";
       language := read response "language" |}
  else
    {| id := n;
       message := failed_text (read response "error");
       isUser := false;
       timestamp := t;
       isTyping := Undefined;
       code := Undefined;
       language := Undefined |}.

Definition not_typing (m : Message) : Prop := truthy (isTyping m) = false.

(** Sample environments: a back end that answers every request with a
    generated snippet, and one that cannot be reached. *)
Definition sample_reply : Value :=
  Obj [ ("success", Bool true)
      ; ("response",
         Obj [ ("success", Bool true)
             ; ("model_used", Str "fallback")
             ; ("code", Str "print(1)")
             ; ("language", Str "python")
             ; ("explanation", Str "prints one") ]) ].

(** A reply that says [success] and carries no [response]. *)
Definition bare_reply : Value := Obj [("success", Bool true)].

(** A reply whose [code] owns a [toString] that is not a function. *)
Definition odd_reply : Value :=
  Obj [ ("success", Bool true)
      ; ("response",
         Obj [ ("success", Bool true)
             ; ("model_used", Str "fallback")
             ; ("code", Obj [("toString", Num 1)])
             ; ("language", Str "python")
             ; ("explanation", Str "prints one") ]) ].

Definition replying (data : Value) : World Dashboard :=
  {| clock := fun n => pretty n;
     network := fun _ => Returned {| json := Returned data |};
     meanwhile := fun s => s |}.

Definition sample_world : World Dashboard :=
  {| clock := fun n => pretty n;
     network := fun _ => Returned {| json := Returned sample_reply |};
     meanwhile := fun s => s |}.

Definition offline_world : World Dashboard :=
  {| clock := fun n => pretty n;
     network := fun _ => Thrown (Rejected "Failed to fetch");
     meanwhile := fun s => s |}.

Definition sample_executor : World Value :=
  {| clock := fun n => pretty n;
     network := fun _ =>
       Returned {| json := Returned (Obj [ ("success", Bool true)
                                         ; ("output", Str "1") ]) |};
     meanwhile := fun v => v |}.

Definition sample_dashboard : Dashboard :=
  {| messages :=
       [ {| id := 1; message := "Hello!"; isUser := false;
            timestamp := "09:00:00"; isTyping := Undefined;
            code := Undefined; language := Undefined |} ];
     inputMessage := "write fibonacci" |}.

End Frontend.

(** ** The generation core *)

Module Core.
Local Open Scope nat_scope.

(** Modelled from the spec: the id of a provider; the back end's
    provider registry is not among the sources. *)
Definition ProviderId : Type := string.

(** Modelled from the spec: the [status] of a ProviderResult (section 3). *)
Inductive Status : Type := Success | Failed | TimedOut.

(** Modelled from the spec: "status=Success", as a test. *)
Definition is_success (s : Status) : bool :=
  match s with
  | Success => true
  | _ => false
  end.

Module CodeRequest.
(** Modelled from the spec: the CodeRequest of the data model (section
    3); [requestedModel] is ["auto"] or a provider id. *)
Record t : Type := {
  prompt : string;
  language : string;
  requestedModel : string
}.
End CodeRequest.

Module ProviderResult.
(** Modelled from the spec: the ProviderResult of the data model (section
    3), with its optional fields as options and [latency] in
    milliseconds. *)
Record t : Type := {
  providerId : ProviderId;
  status : Status;
  code : option string;
  explanation : option string;
  latency : N;
  errorDetail : option string
}.
End ProviderResult.

Module SelectedResponse.
(** Modelled from the spec: the SelectedResponse of the data model
    (section 3). *)
Record t : Type := {
  code : string;
  language : string;
  explanation : string;
  sourceProviderId : ProviderId;
  qualityScore : nat
}.
End SelectedResponse.

(** Modelled from the spec: a ProviderAdapter, the capability
    [generate(CodeRequest, deadline) -> ProviderResult] under the id it is
    registered with.  The [latency] of its result is the time it takes to
    return when left alone. *)
Record Adapter : Type := {
  adapterId : ProviderId;
  generate : CodeRequest.t -> N -> ProviderResult.t
}.

(** Modelled from the spec: an entry of the fallback catalog, a task
    signature with the code it renders for a language. *)
Record Template : Type := {
  signature : string;
  render : string -> string;
  about : string
}.

(** Modelled from the spec: what is fixed at start-up and read-only
    afterwards: the adapter registry, the provider ranking, the template
    catalog with its match scoring and threshold, and the selector's
    configurable scoring (code-block test, plausible length range,
    weights). *)
Record Config : Type := {
  registry : list Adapter;
  ranking : list ProviderId;
  catalog : list Template;
  confidence : Template -> string -> nat;
  threshold : nat;
  parseable : string -> string -> bool;
  min_length : nat;
  max_length : nat;
  weight_block : nat;
  weight_length : nat;
  weight_explanation : nat
}.

(** Modelled from the spec: "pick the highest" and "best-matching", as
    the first element of a list that no other element beats. *)
Fixpoint best {A} (better : A -> A -> bool) (l : list A) : option A :=
  match l with
  | [] => None
  | x :: rest =>
      match best better rest with
      | None => Some x
      | Some b => if better b x then Some b else Some x
      end
  end.

Module FallbackTemplateEngine.

(** Modelled from the spec: the best-matching template of the catalog for
    a prompt (section 4.2), by the configured match confidence. *)
Definition best_template (cfg : Config) (prompt : string) : option Template :=
  best (fun t1 t2 => confidence cfg t2 prompt <? confidence cfg t1 prompt)
       (catalog cfg).

(** Modelled from the spec: FallbackTemplateEngine (section 4.2),
    [match(CodeRequest) -> Optional<SelectedResponse>]: the best-matching
    template rendered for the requested language if its match confidence
    exceeds the fixed threshold, else nothing.  Its answer carries the
    ["fallback"] sentinel of the data model. *)
Definition match_ (cfg : Config) (req : CodeRequest.t)
  : option SelectedResponse.t :=
  match best_template cfg (CodeRequest.prompt req) with
  | Some t =>
      let c := confidence cfg t (CodeRequest.prompt req) in
      if threshold cfg <? c then
        Some {| SelectedResponse.code := render t (CodeRequest.language req);
                SelectedResponse.language := CodeRequest.language req;
                SelectedResponse.explanation := about t;
                SelectedResponse.sourceProviderId := "fallback";
                SelectedResponse.qualityScore := c |}
      else None
  | None => None
  end.

End FallbackTemplateEngine.

(** RequestRouter (section 4.3 and the cancellation rule of section 5).
    [deadline] is the shared per-request deadline in milliseconds; a
    caller-level cancellation arrives as deadline zero. *)
Module RequestRouter.

(** Modelled from the spec: the router's contract, [route(CodeRequest) ->
    (ordered list of ProviderResult, Optional<SelectedResponse>
    fallback)]. *)
Record Output : Type := {
  results : list ProviderResult.t;
  fallback : option SelectedResponse.t
}.

(** Modelled from the spec: step 1 of the router, "if requestedModel
    names one provider, use only that adapter; if auto, use all
    registered adapters". *)
Definition candidates (cfg : Config) (req : CodeRequest.t) : list Adapter :=
  if String.eqb (CodeRequest.requestedModel req) "auto"
  then registry cfg
  else List.filter
         (fun a => String.eqb (adapterId a) (CodeRequest.requestedModel req))
         (registry cfg).

(** Modelled from the spec: the result the router records for an
    adapter it marks as [TimedOut]. *)
Definition timedOut (a : Adapter) (deadline : N) : ProviderResult.t :=
  {| ProviderResult.providerId := adapterId a;
     ProviderResult.status := TimedOut;
     ProviderResult.code := None;
     ProviderResult.explanation := None;
     ProviderResult.latency := deadline;
     ProviderResult.errorDetail := Some "Timeout" |}.

(** Modelled from the spec: "still outstanding at the deadline": the
    request was cancelled (deadline zero cancels all adapters at once) or
    the adapter's answer would come later than the deadline. *)
Definition outstanding (deadline : N) (r : ProviderResult.t) : bool :=
  (deadline =? 0)%N || (deadline <? ProviderResult.latency r)%N.

(** Modelled from the spec: steps 2 and 3 of the router for one
    adapter: its own result, success, failure or timeout, or [TimedOut]
    when it is still outstanding at the deadline. *)
Definition collect (deadline : N) (req : CodeRequest.t) (a : Adapter)
  : ProviderResult.t :=
  let r := generate a req deadline in
  if outstanding deadline r then timedOut a deadline else r.

(** Modelled from the spec: "collected in completion order" (section
    5); a result is complete at its latency. *)
Definition earlier (r1 r2 : ProviderResult.t) : Prop :=
  (ProviderResult.latency r1 <= ProviderResult.latency r2)%N.

#[export] Instance earlier_dec : RelDecision earlier :=
  fun r1 r2 =>
    decide (ProviderResult.latency r1 <= ProviderResult.latency r2)%N.

(** Modelled from the spec: the negation of "zero returned Success". *)
Definition has_success (rs : list ProviderResult.t) : bool :=
  existsb (fun r => is_success (ProviderResult.status r)) rs.

(** Modelled from the spec: one routing, with what can be observed of
    it besides its output: which adapters were invoked, whether the
    fallback engine was, and when the router returned. *)
Record Routing : Type := {
  output : Output;
  invoked : list ProviderId;
  fallbackInvoked : bool;
  finishedAt : N
}.

(** Modelled from the spec: the router's algorithm, steps 1 to 4 of
    section 4.3: invoke all candidates under the shared deadline, collect
    every result, and "if zero adapters were registered or zero returned
    Success, invoke the FallbackTemplateEngine and attach its result (or
    absence)"; on a cancellation "the fallback path [is] skipped" (section
    5).  The router returns when the last result has been recorded. *)
Definition routing (cfg : Config) (deadline : N) (req : CodeRequest.t)
  : Routing :=
  let cs := candidates cfg req in
  let collected := List.map (collect deadline req) cs in
  (* results in completion order *)
  let rs := merge_sort earlier collected in
  (* step 4, skipped when the caller is gone *)
  let use_fallback := negb (deadline =? 0)%N && negb (has_success rs) in
  {| output :=
       {| results := rs;
          fallback := if use_fallback
                      then FallbackTemplateEngine.match_ cfg req
                      else None |};
     invoked := List.map adapterId cs;
     fallbackInvoked := use_fallback;
     finishedAt :=
       List.fold_right N.max 0%N (List.map ProviderResult.latency collected) |}.

(** Modelled from the spec: [route], the output of a routing. *)
Definition route (cfg : Config) (deadline : N) (req : CodeRequest.t)
  : Output :=
  output (routing cfg deadline req).

End RequestRouter.

(** ResponseSelector (section 4.4). *)
Module ResponseSelector.

(** Modelled from the spec: the selector's failure (sections 4.4, 7). *)
Inductive Failure : Type := NoViableCandidate.

(** Modelled from the spec: the code of a result, the empty text when the
    optional field is absent. *)
Definition code_of (r : ProviderResult.t) : string :=
  default "" (ProviderResult.code r).

(** Modelled from the spec: "code length within a plausible non-trivial
    range". *)
Definition in_range (cfg : Config) (c : string) : bool :=
  (min_length cfg <=? String.length c) && (String.length c <=? max_length cfg).

(** Modelled from the spec: the quality score of section 4.4, from (a) a
    parseable code block for the requested language, (b) a plausible
    length, (c) the presence of an explanation, with configurable
    weights. *)
Definition score (cfg : Config) (req : CodeRequest.t) (r : ProviderResult.t)
  : nat :=
  (if parseable cfg (CodeRequest.language req) (code_of r)
   then weight_block cfg else 0) +
  (if in_range cfg (code_of r) then weight_length cfg else 0) +
  (if ProviderResult.explanation r is Some _
   then weight_explanation cfg else 0).

(** Modelled from the spec: "provider priority order (a fixed,
    configured ranking list)": the position in the list; a provider the
    list does not name comes after all it names. *)
Fixpoint rank (ranking : list ProviderId) (p : ProviderId) : nat :=
  match ranking with
  | [] => 0
  | q :: rest => if String.eqb p q then 0 else S (rank rest p)
  end.

(** Modelled from the spec: what a candidate is compared by: score,
    then priority, then latency. *)
Definition key (cfg : Config) (req : CodeRequest.t) (r : ProviderResult.t)
  : nat * nat * N :=
  (score cfg req r,
   rank (ranking cfg) (ProviderResult.providerId r),
   ProviderResult.latency r).

(** Modelled from the spec: "pick the highest score; tie-break by
    provider priority order ... then by lowest latency": [r1] beats
    [r2]. *)
Definition better (cfg : Config) (req : CodeRequest.t)
    (r1 r2 : ProviderResult.t) : bool :=
  let '(s1, p1, l1) := key cfg req r1 in
  let '(s2, p2, l2) := key cfg req r2 in
  (s2 <? s1) ||
  ((s1 =? s2) && ((p1 <? p2) || ((p1 =? p2) && (l1 <? l2)%N))).

(** Modelled from the spec: the results that feed the selector ("never
    ... unless status=Success"). *)
Definition successes (results : list ProviderResult.t)
  : list ProviderResult.t :=
  List.filter (fun r => is_success (ProviderResult.status r)) results.

(** Modelled from the spec: the SelectedResponse derived from the
    chosen result. *)
Definition to_response (cfg : Config) (req : CodeRequest.t)
    (r : ProviderResult.t) : SelectedResponse.t :=
  {| SelectedResponse.code := code_of r;
     SelectedResponse.language := CodeRequest.language req;
     SelectedResponse.explanation := default "" (ProviderResult.explanation r);
     SelectedResponse.sourceProviderId := ProviderResult.providerId r;
     SelectedResponse.qualityScore := score cfg req r |}.

(** Modelled from the spec: [select(results, fallback) ->
    SelectedResponse | Fails(NoViableCandidate)]: the best successful
    result; "if no successful result exists, use the fallback response if
    present; otherwise the selector fails with NoViableCandidate".  The
    request is passed along for its language. *)
Definition select (cfg : Config) (req : CodeRequest.t)
    (results : list ProviderResult.t) (fallback : option SelectedResponse.t)
  : SelectedResponse.t + Failure :=
  match best (better cfg req) (successes results) with
  | Some r => inl (to_response cfg req r)
  | None =>
      match fallback with
      | Some fb => inl fb
      | None => inr NoViableCandidate
      end
  end.

End ResponseSelector.

(** Modelled from the spec: the generation pipeline of section 2, the
    router followed by the selector. *)
Definition pipeline (cfg : Config) (deadline : N) (req : CodeRequest.t)
  : SelectedResponse.t + ResponseSelector.Failure :=
  let out := RequestRouter.route cfg deadline req in
  ResponseSelector.select cfg req
    (RequestRouter.results out) (RequestRouter.fallback out).

Module ProjectFile.
(** Modelled from the spec: the ProjectFile of the data model (section
    3). *)
Record t : Type := {
  relativePath : string;
  content : list Byte.byte;
  contentHash : N
}.
End ProjectFile.

(** Modelled from the spec: the [status] of a Project (section 3). *)
Inductive ProjectStatus : Type := Draft | Created | Building | Deployed.

Module Project.
(** Modelled from the spec: the Project of the data model (section 3). *)
Record t : Type := {
  id : nat;
  name : string;
  files : list ProjectFile.t;
  createdAt : N;
  status : ProjectStatus
}.
End Project.

(** ProjectMaterializer (section 4.6) for a SelectedResponse, writing
    through to the persisted layout of section 6. *)
Module ProjectMaterializer.

(** Modelled from the spec: the materializer's faults (section 7). *)
Inductive Fault : Type := ProjectNotFound | InvalidPath.

(** Modelled from the spec: the naming and hashing the materializer is
    configured with; the design document leaves them open. *)
Record Settings : Type := {
  hash : list Byte.byte -> N;
  entry_path : string -> string;
  project_name : SelectedResponse.t -> string
}.

(** Modelled from the spec: the projects by id, and the persisted
    layout they are written through to. *)
Record Store : Type := {
  projects : gmap nat Project.t;
  disk : gmap string (list Byte.byte)
}.

(** Modelled from the spec: "each Project maps to a directory whose name
    is the project id; each ProjectFile maps to a file at its relative path
    under that directory" (section 6). *)
Definition path_of (pid : nat) (relativePath : string) : string :=
  pretty pid +:+ "/" +:+ relativePath.

(** Modelled from the spec: the write-through of a project's files. *)
Definition write_files (pid : nat) (fs : list ProjectFile.t)
    (d : gmap string (list Byte.byte)) : gmap string (list Byte.byte) :=
  List.fold_right
    (fun f acc =>
       <[path_of pid (ProjectFile.relativePath f) := ProjectFile.content f]> acc)
    d fs.

(** Modelled from the spec: [materialize(SelectedResponse) -> Project]:
    "writes one or more ProjectFile entries under a fresh project id";
    for a SelectedResponse, one file holding the bytes of its code. *)
Definition materialize (st : Settings) (now : N) (s : Store)
    (resp : SelectedResponse.t) : Store * Project.t :=
  let pid := fresh (dom (projects s)) in
  let bytes := String.list_byte_of_string (SelectedResponse.code resp) in
  let file :=
    {| ProjectFile.relativePath := entry_path st (SelectedResponse.language resp);
       ProjectFile.content := bytes;
       ProjectFile.contentHash := hash st bytes |} in
  let project :=
    {| Project.id := pid;
       Project.name := project_name st resp;
       Project.files := [file];
       Project.createdAt := now;
       Project.status := Created |} in
  ({| projects := <[pid := project]> (projects s);
      disk := write_files pid [file] (disk s) |},
   project).

(** Modelled from the spec: reading a project back: each of its files,
    by relative path, with the bytes found on disk; an unknown id is
    rejected with [ProjectNotFound]. *)
Definition read_files (s : Store) (pid : nat)
  : list (string * option (list Byte.byte)) + Fault :=
  match projects s !! pid with
  | None => inr ProjectNotFound
  | Some project =>
      inl (List.map
             (fun f => (ProjectFile.relativePath f,
                        disk s !! path_of pid (ProjectFile.relativePath f)))
             (Project.files project))
  end.

End ProjectMaterializer.

(** *** Vocabulary for the core's properties *)

(** The selector's order, on keys: a higher score, else a better
    priority, else a lower latency. *)
Definition beats (k1 k2 : nat * nat * N) : Prop :=
  let '(s1, p1, l1) := k1 in
  let '(s2, p2, l2) := k2 in
  s2 < s1 \/ (s1 = s2 /\ (p1 < p2 \/ (p1 = p2 /\ (l1 < l2)%N))).

(** A registry as section 4.3 and 4.4 take it: every adapter is
    registered under an id of its own that the ranking list names, and
    labels its results with that id. *)
Definition well_registered (cfg : Config) : Prop :=
  List.NoDup (List.map adapterId (registry cfg)) /\
  (forall a, In a (registry cfg) -> In (adapterId a) (ranking cfg)) /\
  (forall a req deadline,
     In a (registry cfg) ->
     ProviderResult.providerId (generate a req deadline) = adapterId a).

(** No two successful results tie on score, priority and latency. *)
Definition untied (cfg : Config) (req : CodeRequest.t)
    (results : list ProviderResult.t) : Prop :=
  forall r1 r2,
    In r1 (ResponseSelector.successes results) ->
    In r2 (ResponseSelector.successes results) ->
    ResponseSelector.key cfg req r1 = ResponseSelector.key cfg req r2 ->
    r1 = r2.

(** *** A sample deployment *)

Definition occurs (needle hay : string) : bool :=
  if String.index 0 needle hay is Some _ then true else false.

Definition fibonacci : Template :=
  {| signature := "fibonacci";
     render := fun _ => "def fib(n): return n if n < 2 else fib(n-1) + fib(n-2)";
     about := "Recursive Fibonacci" |}.

(** An adapter that answers [status] after [latency] milliseconds. *)
Definition fixed (id : ProviderId) (status : Status)
    (code explanation : option string) (latency : N) : Adapter :=
  {| adapterId := id;
     generate := fun _ _ =>
       {| ProviderResult.providerId := id;
          ProviderResult.status := status;
          ProviderResult.code := code;
          ProviderResult.explanation := explanation;
          ProviderResult.latency := latency;
          ProviderResult.errorDetail :=
            if is_success status then None else Some "NetworkError" |} |}.

Definition deployment (adapters : list Adapter) : Config :=
  {| registry := adapters;
     ranking := ["openai"; "anthropic"; "groq"];
     catalog := [fibonacci];
     confidence := fun t prompt => if occurs (signature t) prompt then 80 else 0;
     threshold := 50;
     parseable := fun _ c => occurs "def " c;
     min_length := 10;
     max_length := 4000;
     weight_block := 10;
     weight_length := 5;
     weight_explanation := 1 |}.

Definition fib_request : CodeRequest.t :=
  {| CodeRequest.prompt := "write a fibonacci function in python";
     CodeRequest.language := "python";
     CodeRequest.requestedModel := "auto" |}.

Definition openai_ok : Adapter :=
  fixed "openai" Success (Some "def fib(n): return fib_iter(n, 0, 1)")
        (Some "Iterative") 900%N.

Definition groq_down : Adapter := fixed "groq" Failed None None 40%N.

Definition anthropic_slow : Adapter :=
  fixed "anthropic" Success (Some "def fib(n): ...") None 45000%N.

(** A second successful adapter, slower and without an explanation. *)
Definition anthropic_ok : Adapter :=
  fixed "anthropic" Success (Some "def fib(n): return fib_memo(n, {})")
        None 1200%N.

Definition sample_deployment : Config :=
  deployment [groq_down; anthropic_ok; openai_ok].


Definition sample_response : SelectedResponse.t :=
  {| SelectedResponse.code := "def fib(n): return fib_iter(n, 0, 1)";
     SelectedResponse.language := "python";
     SelectedResponse.explanation := "Iterative";
     SelectedResponse.sourceProviderId := "openai";
     SelectedResponse.qualityScore := 16 |}.

Definition sample_settings : ProjectMaterializer.Settings :=
  {| ProjectMaterializer.hash := fun bytes => N.of_nat (length bytes);
     ProjectMaterializer.entry_path := fun language =>
       if String.eqb language "python" then "main.py" else "main.txt";
     ProjectMaterializer.project_name := fun _ => "generated" |}.

End Core.

(** ** The front end, continued: projects and message rendering

    The rest of [Dashboard] and [ChatMessage] in
    [frontend/src/components.js]: [handleNewProject],
    [handleDeleteProject] and [renderMessage]. *)

Module Workspace.
Import JS Frontend.
Local Open Scope js_scope.

Module Project.
(** An entry of the dashboard's [projects] state.  [id] and [name] of a
    project made by [handleNewProject] are whatever the reply holds. *)
Record t : Type := {
  id : Value;
  name : Value;
  type : string;
  description : string;
  lastModified : string;
  status : string
}.
End Project.

(** One call of [console.error]: a label, then a value or a caught
    error. *)
Inductive Logged : Type :=
| LogValue (label : string) (detail : Value)
| LogError (label : string) (error : Error).

(** The state cells of [Dashboard] that the project handlers touch, and
    the browser console they write to. *)
Record Page : Type := {
  activeTab : string;
  projects : list Project.t;
  messages : list Message;
  console : list Logged
}.

Definition setProjects (f : list Project.t -> list Project.t) : Prog Page unit :=
  update (fun s => Returned {| activeTab := activeTab s;
                               projects := f (projects s);
                               messages := messages s;
                               console := console s |}).

Definition setActiveTab (tab : string) : Prog Page unit :=
  update (fun s => Returned {| activeTab := tab;
                               projects := projects s;
                               messages := messages s;
                               console := console s |}).

Definition setMessages (f : list Message -> list Message) : Prog Page unit :=
  update (fun s => Returned {| activeTab := activeTab s;
                               projects := projects s;
                               messages := f (messages s);
                               console := console s |}).

Definition console_error (entry : Logged) : Prog Page unit :=
  update (fun s => Returned {| activeTab := activeTab s;
                               projects := projects s;
                               messages := messages s;
                               console := console s ++ [entry] |}).

Definition dq : string := Eval cbv in utf8 [34%nat].

(** *** [handleNewProject] *)

Definition projects_request (backend : Value) : Request :=
  {| url := ToString backend +:+ "/api/projects";
     method := "POST";
     headers := json_headers;
     body := JSON_stringify
               (Obj [ ("description", Str "New AI-generated project")
                    ; ("tech_stack", Str "React + FastAPI")
                    ; ("user_id", Str "demo-user") ]) |}.

(** The [catch] of [handleNewProject]. *)
Definition caught (error : Error) : Prog Page unit :=
  console_error (LogError "Error creating project:" error).

(** Inside the [try]: the block goes on with what [m] returned, and
    what [m] throws goes to the [catch]. *)
Definition try_ {A} (m : Exn A) (k : A -> Prog Page unit) : Prog Page unit :=
  match m with
  | Returned a => k a
  | Thrown error => caught error
  end.

(** [handleNewProject], closed over the [messages] of the render that
    created it.  The text of the success message is put together after
    the project and the tab have been queued, and before the clock is
    read. *)
Definition handleNewProject (backend : Value) (messages : list Message)
  : Prog Page unit :=
  (response <- fetch (projects_request backend);;
   try_ (bind response json) (fun data =>
   try_ (get data "success") (fun success =>
   if truthy success then
     try_ (get data "project_id") (fun project_id =>
     try_ (get data "project_name") (fun project_name =>
     let newProject :=
       {| Project.id := project_id;
          Project.name := project_name;
          Project.type := "React + FastAPI";
          Project.description := "A new project created with AI assistance";
          Project.lastModified := "Just now";
          Project.status := "created" |} in
     _ <- setProjects (fun prev => newProject :: prev);;
     _ <- setActiveTab "projects";;
     try_ (bind (get data "project_name") interpolate) (fun name_text =>
     try_ (bind (get data "files_created") interpolate) (fun files_text =>
     try_ (bind (get data "project_id") interpolate) (fun id_text =>
     t <- now;;
     let successMessage :=
       {| Frontend.id := length messages + 1;
          message :=
            "ðŸŽ‰ Project " +:+ dq +:+ name_text +:+ dq +:+
            " created successfully!" +:+ nl +:+ nl +:+
            "Files created: " +:+ files_text +:+ nl +:+
            "Project ID: " +:+ id_text;
          isUser := false;
          timestamp := t;
          isTyping := Undefined;
          code := Undefined;
          language := Undefined |} in
     setMessages (fun prev => prev ++ [successMessage]))))))
   else
     try_ (get data "error") (fun error =>
     console_error (LogValue "Failed to create project:" error)))))%prog.

(** *** [handleDeleteProject] *)

(** [a === b].  Two arrays or objects are the same only when they are one
    object in memory, which a value tree does not tell: that comparison
    is left open. *)
Definition strict_equal (a b : Value) : option bool :=
  match a, b with
  | Undefined, Undefined => Some true
  | Null, Null => Some true
  | Bool x, Bool y => Some (Bool.eqb x y)
  | Num x, Num y => Some (x =? y)%Z
  | Str x, Str y => Some (String.eqb x y)
  | Arr _, Arr _ | Arr _, Obj _ | Obj _, Arr _ | Obj _, Obj _ => None
  | _, _ => Some false
  end.

(** The update [handleDeleteProject] queues on [projects]:
    [prev.filter(p => p.id !== projectId)]. *)
Fixpoint handleDeleteProject (projectId : Value) (prev : list Project.t)
  : option (list Project.t) :=
  match prev with
  | [] => Some []
  | p :: rest =>
      match strict_equal (Project.id p) projectId, handleDeleteProject projectId rest with
      | Some same, Some rest' => Some (if negb same then p :: rest' else rest')
      | _, _ => None
      end
  end.

(** *** [renderMessage] *)

(** [s.replace(re, ...)] with a global pattern that never matches the
    empty string: at each position the matcher [m] gives the replacement
    and the rest of the string, or nothing, and then one character is
    kept.  Every step consumes input, so the length of the string is fuel
    enough. *)
Fixpoint replace_all (m : string -> option (string * string))
    (fuel : nat) (s : string) : string :=
  match fuel with
  | O => s
  | S fuel' =>
      match s with
      | EmptyString => EmptyString
      | String c rest =>
          match m s with
          | Some (out, s') => out +:+ replace_all m fuel' s'
          | None => String c (replace_all m fuel' rest)
          end
      end
  end.

Definition replace (m : string -> option (string * string)) (s : string)
  : string :=
  replace_all m (String.length s) s.

(** The characters [.] does not match: LF, CR, U+2028, U+2029. *)
Definition line_terminators : list string :=
  Eval cbv in
  List.map utf8 [ [10]; [13]; [226; 128; 168]; [226; 128; 169] ]%nat.

(** [(.*?)\*\*]: the shortest run without a line terminator that two
    asterisks follow. *)
Fixpoint until_stars (s : string) : option (string * string) :=
  match strip_prefix "**" s with
  | Some rest => Some (EmptyString, rest)
  | None =>
      match s with
      | EmptyString => None
      | String c s' =>
          match strip_any line_terminators s with
          | Some _ => None
          | None =>
              match until_stars s' with
              | Some (group, rest) => Some (String c group, rest)
              | None => None
              end
          end
      end
  end.

(** [/\*\*(.*?)\*\*/] replaced by [<strong>$1</strong>]. *)
Definition bold (s : string) : option (string * string) :=
  match strip_prefix "**" s with
  | Some s1 =>
      match until_stars s1 with
      | Some (group, rest) => Some ("<strong>" +:+ group +:+ "</strong>", rest)
      | None => None
      end
  | None => None
  end.

(** [\w]: a letter, a digit or the underscore. *)
Definition word_char (c : Ascii.ascii) : bool :=
  let n := Ascii.nat_of_ascii c in
  (((65 <=? n) && (n <=? 90)) || ((97 <=? n) && (n <=? 122)) ||
   ((48 <=? n) && (n <=? 57)) || (n =? 95))%nat.

(** [(\w+)?], greedy: the longest run of word characters. *)
Fixpoint take_word (s : string) : string * string :=
  match s with
  | String c s' =>
      if word_char c
      then let '(w, rest) := take_word s' in (String c w, rest)
      else (EmptyString, s)
  | EmptyString => (EmptyString, EmptyString)
  end.

(** [([\s\S]*?)```]: everything up to the next fence. *)
Fixpoint until_fence (s : string) : option (string * string) :=
  match strip_prefix "```" s with
  | Some rest => Some (EmptyString, rest)
  | None =>
      match s with
      | EmptyString => None
      | String c s' =>
          match until_fence s' with
          | Some (group, rest) => Some (String c group, rest)
          | None => None
          end
      end
  end.

(** The replacement function of the fenced block; [lang] is [undefined]
    when the group took no part in the match. *)
Definition code_block (lang : Value) (code : string) : string :=
  "<div class=" +:+ dq +:+ "code-block" +:+ dq +:+ ">" +:+ nl +:+
  "        <div class=" +:+ dq +:+ "code-header" +:+ dq +:+ ">" +:+
  ToString (or_else lang (Str "code")) +:+ "</div>" +:+ nl +:+
  "        <pre><code>" +:+ trim code +:+ "</code></pre>" +:+ nl +:+
  "      </div>".

(** [/```(\w+)?\n?([\s\S]*?)```/].  The word and the line feed are taken
    greedily; giving them back never helps, since what they cover holds
    no backtick. *)
Definition fence (s : string) : option (string * string) :=
  match strip_prefix "```" s with
  | Some s1 =>
      let '(word, s2) := take_word s1 in
      let lang := if String.eqb word "" then Undefined else Str word in
      let s3 := match strip_prefix nl s2 with
                | Some r => r
                | None => s2
                end in
      match until_fence s3 with
      | Some (code, rest) => Some (code_block lang code, rest)
      | None => None
      end
  | None => None
  end.

Definition backtick : Ascii.ascii := Eval cbv in Ascii.ascii_of_nat 96.

(** [[^`]+], greedy: the longest run without a backtick. *)
Fixpoint take_unticked (s : string) : string * string :=
  match s with
  | String c s' =>
      if Ascii.eqb c backtick
      then (EmptyString, s)
      else let '(w, rest) := take_unticked s' in (String c w, rest)
  | EmptyString => (EmptyString, EmptyString)
  end.

(** [/`([^`]+)`/] replaced by [<code class="inline-code">$1</code>]. *)
Definition inline (s : string) : option (string * string) :=
  match strip_prefix "`" s with
  | Some s1 =>
      let '(group, s2) := take_unticked s1 in
      if String.eqb group "" then None
      else match strip_prefix "`" s2 with
           | Some rest =>
               Some ("<code class=" +:+ dq +:+ "inline-code" +:+ dq +:+ ">" +:+
                     group +:+ "</code>", rest)
           | None => None
           end
  | None => None
  end.

(** [/\n/] replaced by [<br>]. *)
Definition line_break (s : string) : option (string * string) :=
  match strip_prefix nl s with
  | Some rest => Some ("<br>", rest)
  | None => None
  end.

Definition renderMessage (text : string) : string :=
  let rendered := replace bold text in
  let rendered := replace fence rendered in
  let rendered := replace inline rendered in
  let rendered := replace line_break rendered in
  rendered.

(** *** Vocabulary for the properties of these functions *)

(** A reply that reports a created project: [data.success] can be read
    and is truthy. *)
Definition created (data : Value) : bool :=
  negb (nullish data) && truthy (read data "success").

(** The project and the chat message [handleNewProject] makes of a
    reply. *)
Definition project_of (data : Value) : Project.t :=
  {| Project.id := read data "project_id";
     Project.name := read data "project_name";
     Project.type := "React + FastAPI";
     Project.description := "A new project created with AI assistance";
     Project.lastModified := "Just now";
     Project.status := "created" |}.

Definition created_text (data : Value) : string :=
  "ðŸŽ‰ Project " +:+ dq +:+ ToString (read data "project_name") +:+ dq +:+
  " created successfully!" +:+ nl +:+ nl +:+
  "Files created: " +:+ ToString (read data "files_created") +:+ nl +:+
  "Project ID: " +:+ ToString (read data "project_id").

(** The replies whose success message can be put together: the three
    values it shows can be converted to strings. *)
Definition announced (data : Value) : bool :=
  converts (read data "project_name") &&
  converts (read data "files_created") &&
  converts (read data "project_id").

(** Neither an array nor an object. *)
Definition primitive (v : Value) : bool :=
  match v with
  | Arr _ | Obj _ => false
  | _ => true
  end.

(** Messages numbered 1, 2, 3, ... in list order. *)
Definition well_numbered (ms : list Message) : Prop :=
  List.map Frontend.id ms = List.seq 1 (length ms).

(** No [undefined] anywhere: what [response.json()] can give. *)
Fixpoint is_json (v : Value) : bool :=
  match v with
  | Undefined => false
  | Arr items => List.forallb is_json items
  | Obj props => List.forallb (fun kv => is_json (snd kv)) props
  | _ => true
  end.

Fixpoint all_chars (f : Ascii.ascii -> bool) (s : string) : bool :=
  match s with
  | EmptyString => true
  | String c s' => f c && all_chars f s'
  end.

Definition asterisk : Ascii.ascii := Eval cbv in Ascii.ascii_of_nat 42.
Definition line_feed : Ascii.ascii := Eval cbv in Ascii.ascii_of_nat 10.

(** No asterisk, no backtick. *)
Definition unmarked (c : Ascii.ascii) : bool :=
  negb (Ascii.eqb c asterisk) && negb (Ascii.eqb c backtick).

(** Text in which [renderMessage] finds nothing to convert. *)
Definition plain (c : Ascii.ascii) : bool :=
  unmarked c && negb (Ascii.eqb c line_feed).

(** No line terminator starts anywhere in the text. *)
Fixpoint one_line (s : string) : bool :=
  match s with
  | EmptyString => true
  | String c s' =>
      (if strip_any line_terminators s is Some _ then false else true)
      && one_line s'
  end.

(** A project whose id is not [projectId]. *)
Definition differs (projectId : Value) (p : Project.t) : Prop :=
  strict_equal (Project.id p) projectId = Some false.

(** A matcher that takes at least one character with every match. *)
Definition consumes (m : string -> option (string * string)) : Prop :=
  forall s out r, m s = Some (out, r) -> String.length r < String.length s.

(** Characters at which a matcher cannot start. *)
Definition inert (f : Ascii.ascii -> bool)
    (m : string -> option (string * string)) : Prop :=
  forall c rest, f c = true -> m (String c rest) = None.

Definition not_char (x c : Ascii.ascii) : bool := negb (Ascii.eqb c x).

(** Sample environments for the project handlers. *)
Definition sample_page : Page :=
  {| activeTab := "chat";
     projects :=
       [ {| Project.id := Num 1;
            Project.name := Str "E-commerce Platform";
            Project.type := "React + Node.js";
            Project.description :=
              "Full-stack e-commerce platform with payment integration";
            Project.lastModified := "2 hours ago";
            Project.status := "deployed" |} ];
     messages := Frontend.messages sample_dashboard;
     console := [] |}.

Definition created_reply : Value :=
  Obj [ ("success", Bool true)
      ; ("project_id", Str "p-42")
      ; ("project_name", Str "todo-app")
      ; ("files_created", Num 7) ].

(** A created project whose [files_created] cannot be shown. *)
Definition unlisted_reply : Value :=
  Obj [ ("success", Bool true)
      ; ("project_id", Str "p-42")
      ; ("project_name", Str "todo-app")
      ; ("files_created", Arr [Obj [("toString", Num 1)]]) ].

Definition project_world (answer : Exn Response) : World Page :=
  {| clock := fun n => pretty n;
     network := fun _ => answer;
     meanwhile := fun s => s |}.

Definition quiet_world (answer : Exn Response) : World Dashboard :=
  {| clock := fun n => pretty n;
     network := fun _ => answer;
     meanwhile := fun s => s |}.

End Workspace.

(** * Properties of the front end *)

Module FrontendProps.
Import JS Frontend.

(** ** [trim] on blank input *)

Lemma strip_any_white w s :
  In w white_space -> strip_any white_space (w +:+ s) = Some s.
Proof.
  unfold white_space. intros Hw.
  repeat (destruct Hw as [<- | Hw]; [reflexivity |]).
  destruct Hw.
Qed.

Lemma white_space_length w : In w white_space -> 1 <= String.length w.
Proof.
  unfold white_space. intros Hw.
  repeat (destruct Hw as [<- | Hw]; [simpl; lia |]).
  destruct Hw.
Qed.

Lemma length_append (a b : string) :
  String.length (a +:+ b) = String.length a + String.length b.
Proof. induction a as [| c a IH]; simpl; [reflexivity | now rewrite IH]. Qed.

Lemma trim_from_white s :
  white_only s ->
  forall fuel, String.length s <= fuel -> trim_from white_space fuel s = "".
Proof.
  induction 1 as [| w s Hw Hs IH]; intros fuel Hfuel.
  - destruct fuel; reflexivity.
  - rewrite length_append in Hfuel.
    pose proof (white_space_length w Hw) as Hlen.
    destruct fuel as [| fuel]; [lia |].
    cbn [trim_from]. rewrite (strip_any_white w s Hw).
    apply IH. lia.
Qed.

Lemma trim_white s : white_only s -> trim s = "".
Proof.
  intros Hs. unfold trim, trimStart.
  rewrite (trim_from_white s Hs) by lia. reflexivity.
Qed.

(** ** The update functions of [handleSendMessage] *)

Lemma withoutTyping_clean prev : Forall not_typing (withoutTyping prev).
Proof.
  unfold withoutTyping, not_typing. apply List.Forall_forall. intros m Hm.
  apply List.filter_In in Hm as [_ Hm]. now apply negb_true_iff in Hm.
Qed.

Lemma onError_answer e t prev :
  exists m, onError e t prev = Returned (withoutTyping prev ++ [m]) /\ not_typing m.
Proof. eexists. split; reflexivity. Qed.

Lemma interpolate_converts v :
  converts v = true -> interpolate v = Returned (ToString v).
Proof. unfold interpolate. now intros ->. Qed.

Lemma interpolate_throws v :
  converts v = false -> interpolate v = Thrown cannot_convert.
Proof. unfold interpolate. now intros ->. Qed.

Lemma get_opt_read v k : get_opt v k = Returned (read v k).
Proof. unfold get_opt, read. destruct v; reflexivity. Qed.

Lemma get_read v k : nullish v = false -> get v k = Returned (read v k).
Proof. unfold read. destruct v; intros H; try discriminate H; reflexivity. Qed.

(** The success test of the update function: it throws on an unreadable
    reply and otherwise says whether the reply counts as generated code. *)
Lemma success_test {B} data (k : bool -> Exn B) :
  (success <- get data "success";;
   ok <- (if truthy success
          then response <- get data "response";;
               inner <- get response "success";;
               Returned (truthy inner)
          else Returned false);;
   k ok)%js
  = if readable data then k (generated data)
    else Thrown (if nullish data then cannot_read data "success"
                 else cannot_read (read data "response") "success").
Proof.
  unfold readable, generated.
  destruct (nullish data) eqn:Hn.
  - destruct data; try discriminate Hn; reflexivity.
  - rewrite (get_read data "success" Hn). cbn [bind negb andb].
    destruct (truthy (read data "success")); cbn [negb orb andb bind];
      [| reflexivity].
    rewrite (get_read data "response" Hn). cbn [bind].
    destruct (nullish (read data "response")) eqn:Hr; cbn [negb].
    + destruct (read data "response"); try discriminate Hr; reflexivity.
    + now rewrite (get_read _ "success" Hr).
Qed.

(** What the update function does with a readable reply. *)
Lemma onReply_readable data t prev :
  readable data = true ->
  onReply data t prev =
  if presentable data
  then Returned (withoutTyping prev ++
                 [answer data t (length (withoutTyping prev) + 1)])
  else Thrown cannot_convert.
Proof.
  intros Hr. unfold onReply. cbv zeta.
  rewrite success_test, Hr.
  unfold presentable, answer. rewrite Hr. cbn [andb]. cbv zeta.
  assert (Hn : nullish data = false).
  { unfold readable in Hr. apply andb_true_iff in Hr as [Hr _].
    now apply negb_true_iff in Hr. }
  rewrite (get_read data "response" Hn). cbn [bind].
  destruct (generated data) eqn:Hg.
  - assert (Hresp : nullish (read data "response") = false).
    { unfold generated in Hg. apply andb_true_iff in Hg as [_ Hg].
      destruct (read data "response"); try reflexivity; discriminate Hg. }
    rewrite !(get_read _ _ Hresp). cbn [bind].
    unfold generated_text.
    destruct (converts (read (read data "response") "model_used")) eqn:H1;
      [rewrite (interpolate_converts _ H1)
      | now rewrite (interpolate_throws _ H1)].
    cbn [bind andb].
    destruct (converts (read (read data "response") "language")) eqn:H2;
      [rewrite (interpolate_converts _ H2)
      | now rewrite (interpolate_throws _ H2)].
    cbn [bind andb].
    destruct (converts (read (read data "response") "code")) eqn:H3;
      [rewrite (interpolate_converts _ H3)
      | now rewrite (interpolate_throws _ H3)].
    cbn [bind andb].
    destruct (converts (read (read data "response") "explanation")) eqn:H4;
      [rewrite (interpolate_converts _ H4)
      | now rewrite (interpolate_throws _ H4)].
    reflexivity.
  - rewrite get_opt_read. cbn [bind]. unfold failed_text.
    destruct (converts (or_else (read (read data "response") "error")
                          (Str "Failed to generate code"))) eqn:H1;
      [rewrite (interpolate_converts _ H1)
      | now rewrite (interpolate_throws _ H1)].
    reflexivity.
Qed.

Lemma presentable_readable data : presentable data = true -> readable data = true.
Proof. unfold presentable. now intros [H _]%andb_true_iff. Qed.

Lemma onReply_answer data t prev :
  presentable data = true ->
  onReply data t prev =
  Returned (withoutTyping prev ++ [answer data t (length (withoutTyping prev) + 1)]).
Proof.
  intros Hp. rewrite (onReply_readable data t prev (presentable_readable data Hp)).
  now rewrite Hp.
Qed.

(** On every other reply the update function throws. *)
Lemma onReply_throws data t prev :
  presentable data = false -> exists e, onReply data t prev = Thrown e.
Proof.
  intros Hp. destruct (readable data) eqn:Hr.
  - rewrite (onReply_readable data t prev Hr), Hp. eauto.
  - unfold onReply. cbv zeta. rewrite success_test, Hr. eauto.
Qed.

Lemma text_converts v : text v = true -> converts v = true.
Proof. destruct v; intros H; try discriminate H; reflexivity. Qed.

(** Every reply of the declared shape can be answered. *)
Lemma declared_presentable data : declared data = true -> presentable data = true.
Proof.
  unfold declared.
  destruct data as [| | b | n | s | items | props]; try discriminate.
  destruct (lookup_prop "success" props) as [| | b | | | |] eqn:Hs;
    try discriminate.
  destruct (lookup_prop "response" props) as [| | | | | | rprops] eqn:Hr;
    try discriminate; try (destruct b; discriminate).
  - destruct b; [discriminate |]. intros _.
    unfold presentable, readable, generated, read. cbn [get].
    rewrite Hs, Hr. reflexivity.
  - destruct (lookup_prop "success" rprops) as [| | b' | | | |] eqn:Hs';
      try (destruct b; discriminate).
    intros H.
    assert (H' : text (lookup_prop "model_used" rprops) &&
                 text (lookup_prop "code" rprops) &&
                 text (lookup_prop "language" rprops) &&
                 text (lookup_prop "explanation" rprops) &&
                 text (lookup_prop "error" rprops) = true)
      by (destruct b; exact H).
    clear H. rename H' into H.
    repeat (apply andb_true_iff in H as [H ?]).
    unfold presentable, readable, generated, read. cbn [get].
    rewrite Hs, Hr. cbn [get nullish negb andb truthy]. rewrite Hs'.
    rewrite orb_true_r. cbn [andb truthy].
    destruct (b && b').
    + rewrite !text_converts by assumption. reflexivity.
    + unfold or_else.
      destruct (truthy (lookup_prop "error" rprops)); [| reflexivity].
      now apply text_converts.
Qed.

Lemma answer_not_typing data t n : not_typing (answer data t n).
Proof. unfold answer. destruct (generated data); reflexivity. Qed.

Lemma clean_answer prev m :
  not_typing m -> Forall not_typing (withoutTyping prev ++ [m]).
Proof.
  intros Hm. apply List.Forall_app. split.
  - apply withoutTyping_clean.
  - constructor; [exact Hm | constructor].
Qed.

(** A reply that says [success] and has no [response], and one whose
    [code] cannot be converted to a string: the update function throws on
    both. *)
Example unanswerable_replies :
  onReply bare_reply "09:00:01" []
  = Thrown (TypeError "Cannot read properties of undefined (reading 'success')") /\
  onReply Null "09:00:01" []
  = Thrown (TypeError "Cannot read properties of null (reading 'success')") /\
  onReply odd_reply "09:00:01" []
  = Thrown (TypeError "Cannot convert object to primitive value").
Proof. repeat split. Qed.

(** ** Running [handleSendMessage] *)

Lemma blank_returns backend msgs input :
  white_only input -> handleSendMessage backend msgs input = Ret tt.
Proof.
  intros H. unfold handleSendMessage. now rewrite (trim_white input H).
Qed.

(** On input that is not blank the handler sends one request and ends
    with the update of the reply, or of the [catch] branch, applied to
    whatever [messages] then holds. *)
Lemma nonblank_run backend msgs input (w : World Dashboard) s0 :
  trim input <> "" ->
  exists prev inp,
    run w (handleSendMessage backend msgs input) s0 =
    {| state :=
         bind (match bind (network w (chat_request backend input)) json with
               | Returned data => onReply data (clock w 2) prev
               | Thrown e => onError e (clock w 2) prev
               end)
              (fun ms => Returned {| messages := ms; inputMessage := inp |});
       sent := [chat_request backend input];
       result := tt |}.
Proof.
  intros H. unfold handleSendMessage.
  destruct (String.eqb (trim input) "") eqn:E.
  { apply String.eqb_eq in E. contradiction. }
  cbn [truthy negb]. rewrite E. cbn [negb]. unfold run.
  cbn -[onReply onError chat_request].
  destruct (network w (chat_request backend input)) as [resp | e];
    cbn -[onReply onError chat_request].
  - destruct (json resp); cbn -[onReply onError chat_request];
      eexists _, _; reflexivity.
  - eexists _, _; reflexivity.
Qed.

Lemma chat_request_shape backend input :
  url (chat_request backend input) = ToString backend +:+ "/api/chat" /\
  method (chat_request backend input) = "POST" /\
  fields (body (chat_request backend input)) =
    ["message"; "user_id"; "language"; "model"].
Proof. repeat split. Qed.

Lemma fields_execute_body code language :
  truthy code = true ->
  fields (JSON_stringify
            (Obj [ ("code", code)
                 ; ("language", or_else language (Str "python"))
                 ; ("user_id", Str "demo-user") ]))
  = ["code"; "language"; "user_id"].
Proof.
  intros Hc. unfold or_else.
  destruct code; try discriminate Hc;
    destruct language as [| | [] | k | l | ls | lprops]; cbn [truthy];
    try reflexivity.
  all: try (destruct (negb _); reflexivity).
Qed.

(** With the back end out of reach the chat shows the connection error
    in place of the typing indicator. *)
Example offline_chat :
  state (run offline_world
           (handleSendMessage (Str "http://localhost:8001")
              (messages sample_dashboard) "write fibonacci") sample_dashboard)
  = Returned
      {| messages :=
           [ {| id := 1; message := "Hello!"; isUser := false;
                timestamp := "09:00:00"; isTyping := Undefined;
                code := Undefined; language := Undefined |}
           ; {| id := 2; message := "write fibonacci"; isUser := true;
                timestamp := "0"; isTyping := Undefined;
                code := Undefined; language := Undefined |}
           ; {| id := 3;
                message := "âŒ Connection Error: Failed to fetch" +:+ nl +:+ nl +:+
                           "Please check if the backend is running.";
                isUser := false;
                timestamp := "2"; isTyping := Undefined;
                code := Undefined; language := Undefined |} ];
         inputMessage := "" |}.
Proof. vm_compute. reflexivity. Qed.

(** ** The claims about the front end *)

(** C5. Every request of the chat handler goes to POST [/api/chat] with a
    body of exactly the fields message, user_id, language and model; a
    non-blank input sends exactly one.  Every reply of the declared shape
    can be answered, and a reply that can be answered (the success test
    can be evaluated on it and the values shown convert to strings) is
    answered as the declared shape says ([answer]): as generated code when
    both [success] and [response.success] are truthy, from
    [response.model_used], [response.code], [response.language] and
    [response.explanation]; otherwise as a failure, from
    [response.error]. *)
Theorem chat_contract backend msgs input (w : World Dashboard) s0 :
  Forall (fun r =>
            url r = ToString backend +:+ "/api/chat" /\
            method r = "POST" /\
            fields (body r) = ["message"; "user_id"; "language"; "model"])
         (sent (run w (handleSendMessage backend msgs input) s0)) /\
  (trim input <> "" ->
   sent (run w (handleSendMessage backend msgs input) s0)
   = [chat_request backend input]) /\
  (forall data, declared data = true -> presentable data = true) /\
  (forall data t prev,
     presentable data = true ->
     onReply data t prev =
     Returned (withoutTyping prev ++
               [answer data t (length (withoutTyping prev) + 1)])) /\
  (forall data,
     trim input <> "" ->
     bind (network w (chat_request backend input)) json = Returned data ->
     presentable data = true ->
     exists prev inp,
       state (run w (handleSendMessage backend msgs input) s0) =
       Returned {| messages :=
                     withoutTyping prev ++
                     [answer data (clock w 2) (length (withoutTyping prev) + 1)];
                   inputMessage := inp |}).
Proof.
  split; [| split; [| split; [| split]]].
  - destruct (String.eqb (trim input) "") eqn:E.
    + unfold handleSendMessage. cbn [truthy negb]. rewrite E. constructor.
    + assert (Hne : trim input <> "") by (now apply String.eqb_neq).
      destruct (nonblank_run backend msgs input w s0 Hne) as (prev & inp & ->).
      cbn [sent]. constructor; [apply chat_request_shape | constructor].
  - intros Hne.
    destruct (nonblank_run backend msgs input w s0 Hne) as (prev & inp & ->).
    reflexivity.
  - apply declared_presentable.
  - intros data t prev. apply onReply_answer.
  - intros data Hne Hdata Hr.
    destruct (nonblank_run backend msgs input w s0 Hne) as (prev & inp & ->).
    exists prev, inp. cbn [state]. rewrite Hdata.
    now rewrite (onReply_answer data (clock w 2) prev Hr).
Qed.

Lemma chat_contract_witness :
  trim "write fibonacci" <> "" /\
  declared sample_reply = true /\
  presentable sample_reply = true /\
  sent (run sample_world
          (handleSendMessage (Str "http://localhost:8001")
             (messages sample_dashboard) "write fibonacci") sample_dashboard)
  = [chat_request (Str "http://localhost:8001") "write fibonacci"] /\
  onReply sample_reply "09:00:02" (messages sample_dashboard)
  = Returned (withoutTyping (messages sample_dashboard) ++
              [answer sample_reply "09:00:02"
                 (length (withoutTyping (messages sample_dashboard)) + 1)]) /\
  exists prev inp,
    state (run sample_world
             (handleSendMessage (Str "http://localhost:8001")
                (messages sample_dashboard) "write fibonacci") sample_dashboard)
    = Returned {| messages :=
                    withoutTyping prev ++
                    [answer sample_reply (clock sample_world 2)
                       (length (withoutTyping prev) + 1)];
                  inputMessage := inp |}.
Proof.
  assert (Hne : trim "write fibonacci" <> "") by (vm_compute; discriminate).
  assert (Hd : declared sample_reply = true) by reflexivity.
  pose proof (chat_contract (Str "http://localhost:8001")
                (messages sample_dashboard) "write fibonacci"
                sample_world sample_dashboard)
    as (_ & Hsent & Hshape & Hreply & Hrun).
  split; [exact Hne | split; [exact Hd | split; [exact (Hshape _ Hd) |]]].
  split; [exact (Hsent Hne) | split].
  - exact (Hreply sample_reply "09:00:02" (messages sample_dashboard)
             (Hshape _ Hd)).
  - exact (Hrun sample_reply Hne eq_refl (Hshape _ Hd)).
Defined.

(** C8. The Run Code button sends one request, to POST [/api/execute],
    with a body of exactly the fields code, language and user_id; the
    reply (or, when the request fails, [{success: false, error}]) becomes
    [executionResult], and the result pane shows [output], or the
    no-output text, when [success] is truthy and [error] otherwise. *)
Theorem execute_contract backend code language isUser p
    (w : World Value) s0 :
  onClick backend code language isUser = Some p ->
  sent (run w p s0) = [execute_request backend code language] /\
  url (execute_request backend code language)
  = ToString backend +:+ "/api/execute" /\
  method (execute_request backend code language) = "POST" /\
  fields (body (execute_request backend code language))
  = ["code"; "language"; "user_id"] /\
  state (run w p s0) =
  Returned
    (match bind (network w (execute_request backend code language)) json with
     | Returned result => result
     | Thrown e => Obj [("success", Bool false); ("error", Str (error_message e))]
     end) /\
  (forall props,
     executionResultPane (Obj props) =
     Returned
       (if truthy (lookup_prop "success" props)
        then OutputPane
               (or_else (lookup_prop "output" props)
                  (Str "Code executed successfully (no output)"))
        else ErrorPane "Error: " (lookup_prop "error" props))).
Proof.
  unfold onClick, showExecuteButton. intros Hp.
  destruct (truthy code) eqn:Hc; [| discriminate Hp].
  destruct isUser; [discriminate Hp |].
  cbn [negb andb] in Hp. injection Hp as <-.
  split; [| split; [| split; [| split; [| split]]]].
  - unfold run, executeCode. cbn -[execute_request].
    destruct (network w _) as [resp | e]; cbn -[execute_request];
      [destruct (json resp) |]; reflexivity.
  - reflexivity.
  - reflexivity.
  - apply fields_execute_body, Hc.
  - unfold run, executeCode. cbn -[execute_request].
    destruct (network w _) as [resp | e]; cbn -[execute_request];
      [destruct (json resp) |]; reflexivity.
  - intros props. unfold executionResultPane. cbn [truthy get bind].
    destruct (truthy (lookup_prop "success" props)); reflexivity.
Qed.

Lemma execute_contract_witness :
  onClick (Str "http://localhost:8001") (Str "print(1)") (Str "python") false
  = Some (executeCode (Str "http://localhost:8001") (Str "print(1)") (Str "python")) /\
  fields (body (execute_request (Str "http://localhost:8001")
                  (Str "print(1)") (Str "python")))
  = ["code"; "language"; "user_id"].
Proof.
  split; [reflexivity |].
  exact (proj1 (proj2 (proj2 (proj2
           (execute_contract (Str "http://localhost:8001") (Str "print(1)")
              (Str "python") false _ sample_executor Null eq_refl))))).
Defined.

(** Once the handler has dealt with an input that is not blank, no
    message is marked as typing any more (its [isTyping] is neither
    [true] nor any other truthy value) when the request was rejected, its
    body was not JSON, or the reply that came back can be answered. *)
Lemma typing_removed_when_answered backend msgs input (w : World Dashboard) s0 :
  trim input <> "" ->
  (forall data,
     bind (network w (chat_request backend input)) json = Returned data ->
     presentable data = true) ->
  exists s',
    state (run w (handleSendMessage backend msgs input) s0) = Returned s' /\
    Forall not_typing (messages s').
Proof.
  intros Hne Hok.
  destruct (nonblank_run backend msgs input w s0 Hne) as (prev & inp & ->).
  cbn [state].
  destruct (bind (network w (chat_request backend input)) json) as [data | e].
  - rewrite (onReply_answer data (clock w 2) prev (Hok data eq_refl)).
    eexists. split; [reflexivity |]. cbn [messages].
    apply clean_answer, answer_not_typing.
  - destruct (onError_answer e (clock w 2) prev) as (m & -> & Hm).
    eexists. split; [reflexivity |]. cbn [messages].
    now apply clean_answer.
Qed.

(** A reply of [{success: true}] to a non-blank message: the update that
    would take the typing indicator out throws instead. *)
Example bare_reply_keeps_typing :
  state (run (replying bare_reply)
           (handleSendMessage (Str "http://localhost:8001")
              (messages sample_dashboard) "write fibonacci") sample_dashboard)
  = Thrown (TypeError "Cannot read properties of undefined (reading 'success')").
Proof. vm_compute. reflexivity. Qed.

(** C9. The typing indicator is not removed on every exit path.  When
    the reply to a non-blank message cannot be answered (the success test
    cannot be evaluated on it, as on [null] or on [{success: true}], or a
    value the answer shows cannot be converted to a string), the update
    that filters the indicator out throws; it runs outside the handler's
    [try], so nothing catches it and no messages list without the
    indicator comes about. *)
Theorem typing_indicator_not_removed backend msgs input
    (w : World Dashboard) s0 data :
  trim input <> "" ->
  bind (network w (chat_request backend input)) json = Returned data ->
  presentable data = false ->
  exists e,
    state (run w (handleSendMessage backend msgs input) s0) = Thrown e.
Proof.
  intros Hne Hdata Hp.
  destruct (nonblank_run backend msgs input w s0 Hne) as (prev & inp & ->).
  cbn [state]. rewrite Hdata.
  destruct (onReply_throws data (clock w 2) prev Hp) as (e & ->).
  exists e. reflexivity.
Qed.

Lemma typing_indicator_not_removed_witness :
  trim "write fibonacci" <> "" /\
  presentable bare_reply = false /\
  exists e,
    state (run (replying bare_reply)
             (handleSendMessage (Str "http://localhost:8001")
                (messages sample_dashboard) "write fibonacci") sample_dashboard)
    = Thrown e.
Proof.
  assert (Hne : trim "write fibonacci" <> "") by (vm_compute; discriminate).
  split; [exact Hne | split; [reflexivity |]].
  exact (typing_indicator_not_removed (Str "http://localhost:8001")
           (messages sample_dashboard) "write fibonacci"
           (replying bare_reply) sample_dashboard bare_reply
           Hne eq_refl eq_refl).
Defined.

(** C10. On input that is empty or all white space the handler returns
    at once: it queues no update, so [messages] and [inputMessage] stay as
    they are, and it sends no request. *)
Theorem handleSendMessage_blank backend msgs input (w : World Dashboard) s0 :
  white_only input ->
  handleSendMessage backend msgs input = Ret tt /\
  run w (handleSendMessage backend msgs input) s0 =
  {| state := Returned s0; sent := []; result := tt |}.
Proof.
  intros H. rewrite (blank_returns backend msgs input H).
  split; reflexivity.
Qed.

Lemma handleSendMessage_blank_witness :
  white_only "  " /\
  sent (run sample_world
          (handleSendMessage (Str "http://localhost:8001")
             (messages sample_dashboard) "  ") sample_dashboard) = [].
Proof.
  assert (H : white_only "  ").
  { apply (white_cons " " " "); [vm_compute; tauto |].
    apply (white_cons " " ""); [vm_compute; tauto | constructor]. }
  split; [exact H |].
  exact (f_equal sent
           (proj2 (handleSendMessage_blank (Str "http://localhost:8001")
                     (messages sample_dashboard) "  "
                     sample_world sample_dashboard H))).
Defined.

End FrontendProps.

(** * Properties of the generation core *)

Module CoreProps.
Import Core.
Local Open Scope nat_scope.

(** ** Picking the best of a list *)

Section Best.
Context {A : Type} (better : A -> A -> bool).

Lemma best_None l : best better l = None <-> l = [].
Proof.
  destruct l as [| x l]; simpl; [tauto |].
  split; [| discriminate].
  destruct (best better l) as [b |]; [destruct (better b x) |]; discriminate.
Qed.

Lemma best_In l b : best better l = Some b -> In b l.
Proof.
  revert b. induction l as [| x l IH]; intros b; simpl; [discriminate |].
  destruct (best better l) as [c |].
  - destruct (better c x); intros [= <-]; auto.
  - intros [= <-]. auto.
Qed.

Hypothesis asym : forall x y, better x y = true -> better y x = false.
Hypothesis negtrans :
  forall x y z, better x y = false -> better y z = false -> better x z = false.

Lemma better_irrefl x : better x x = false.
Proof. destruct (better x x) eqn:E; [now rewrite (asym x x E) in E | reflexivity]. Qed.

Lemma best_unbeaten l b :
  best better l = Some b -> forall x, In x l -> better x b = false.
Proof.
  revert b. induction l as [| y l IH]; intros b; simpl; [discriminate |].
  destruct (best better l) as [c |] eqn:Hc.
  - destruct (better c y) eqn:Hcy; intros [= <-] x [<- | Hx].
    + now apply asym.
    + now apply IH.
    + apply better_irrefl.
    + apply (negtrans x c y); [now apply IH | exact Hcy].
  - apply best_None in Hc as ->. intros [= <-] x [<- | []].
    apply better_irrefl.
Qed.
End Best.

(** ** The selector's order on candidates *)

Import ResponseSelector.

Lemma better_beats cfg req r1 r2 :
  better cfg req r1 r2 = true <-> beats (key cfg req r1) (key cfg req r2).
Proof.
  unfold better, beats.
  destruct (key cfg req r1) as [[s1 p1] l1], (key cfg req r2) as [[s2 p2] l2].
  destruct (Nat.ltb_spec s2 s1), (Nat.eqb_spec s1 s2), (Nat.ltb_spec p1 p2),
    (Nat.eqb_spec p1 p2), (N.ltb_spec l1 l2); simpl;
    split; intros Hb; try reflexivity; try discriminate Hb; lia.
Qed.

Lemma better_loses cfg req r1 r2 :
  better cfg req r1 r2 = false <-> ~ beats (key cfg req r1) (key cfg req r2).
Proof. rewrite <- better_beats. destruct (better cfg req r1 r2); split; congruence. Qed.

Lemma better_asym cfg req r1 r2 :
  better cfg req r1 r2 = true -> better cfg req r2 r1 = false.
Proof.
  rewrite better_beats, better_loses. unfold beats.
  destruct (key cfg req r1) as [[s1 p1] l1], (key cfg req r2) as [[s2 p2] l2]. lia.
Qed.

Lemma better_negtrans cfg req r1 r2 r3 :
  better cfg req r1 r2 = false -> better cfg req r2 r3 = false ->
  better cfg req r1 r3 = false.
Proof.
  rewrite !better_loses. unfold beats.
  destruct (key cfg req r1) as [[s1 p1] l1], (key cfg req r2) as [[s2 p2] l2],
           (key cfg req r3) as [[s3 p3] l3]. lia.
Qed.

Lemma level_keys cfg req r1 r2 :
  better cfg req r1 r2 = false -> better cfg req r2 r1 = false ->
  key cfg req r1 = key cfg req r2.
Proof.
  rewrite !better_loses. unfold beats.
  destruct (key cfg req r1) as [[s1 p1] l1], (key cfg req r2) as [[s2 p2] l2].
  intros H1 H2. repeat f_equal; lia.
Qed.

Lemma successes_In rs r :
  In r (successes rs) <-> In r rs /\ ProviderResult.status r = Success.
Proof.
  unfold successes. rewrite List.filter_In.
  destruct (ProviderResult.status r); simpl; split; intros [? ?]; split; congruence.
Qed.

Lemma has_success_In rs :
  RequestRouter.has_success rs = true <->
  exists r, In r rs /\ ProviderResult.status r = Success.
Proof.
  unfold RequestRouter.has_success. rewrite List.existsb_exists.
  split; intros (r & Hr & Hs); exists r; split; auto;
    destruct (ProviderResult.status r); simpl in *; congruence.
Qed.

Lemma best_success cfg req rs :
  RequestRouter.has_success rs = true ->
  exists b, best (better cfg req) (successes rs) = Some b.
Proof.
  intros (r & Hr & Hs)%has_success_In.
  destruct (best (better cfg req) (successes rs)) as [b |] eqn:E; [eauto |].
  apply best_None in E. 
  assert (Hin : In r (successes rs)) by (apply successes_In; auto).
  rewrite E in Hin. destruct Hin.
Qed.

Lemma rank_inj ranking p q :
  In p ranking -> In q ranking -> rank ranking p = rank ranking q -> p = q.
Proof.
  induction ranking as [| x l IH]; intros Hp Hq; [destruct Hp |].
  cbn [rank].
  destruct (String.eqb_spec p x) as [-> | Hpx], (String.eqb_spec q x) as [-> | Hqx];
    try reflexivity; try discriminate.
  intros [= E]. destruct Hp as [-> | Hp]; [congruence |].
  destruct Hq as [-> | Hq]; [congruence |]. now apply IH.
Qed.

Lemma NoDup_map_eq {A B} (f : A -> B) (l : list A) x y :
  List.NoDup (List.map f l) -> In x l -> In y l -> f x = f y -> x = y.
Proof.
  induction l as [| a l IH]; intros Hnd Hx Hy E; [destruct Hx |].
  cbn [List.map] in Hnd. apply List.NoDup_cons_iff in Hnd as [Ha Hnd].
  destruct Hx as [<- | Hx], Hy as [<- | Hy]; try reflexivity.
  - destruct Ha. rewrite E. now apply List.in_map.
  - destruct Ha. rewrite <- E. now apply List.in_map.
  - now apply IH.
Qed.

(** Successes of different providers, all named by the ranking list,
    never tie. *)
Lemma ranked_providers_untied cfg req rs :
  List.NoDup (List.map ProviderResult.providerId (successes rs)) ->
  (forall r, In r (successes rs) ->
             In (ProviderResult.providerId r) (ranking cfg)) ->
  untied cfg req rs.
Proof.
  intros Hnd Hranked r1 r2 H1 H2 Hk.
  apply (NoDup_map_eq ProviderResult.providerId (successes rs)); auto.
  unfold key in Hk. injection Hk as _ Hrank _.
  apply (rank_inj (ranking cfg)); auto.
Qed.

(** With at least one Success and no two successes tied on score,
    priority and latency, the selector's answer does not depend on the
    order the results are listed in. *)
Lemma untied_order_independent cfg req rs rs' fb :
  rs ≡ₚ rs' ->
  RequestRouter.has_success rs = true ->
  untied cfg req rs ->
  select cfg req rs fb = select cfg req rs' fb.
Proof.
  intros Hp Hs Hu.
  assert (Hs' : RequestRouter.has_success rs' = true).
  { apply has_success_In in Hs as (r & Hr & Hr').
    apply has_success_In. exists r. split; [| exact Hr'].
    now apply (Permutation_in _ Hp). }
  destruct (best_success cfg req rs Hs) as (b & Hb).
  destruct (best_success cfg req rs' Hs') as (b' & Hb').
  unfold select. rewrite Hb, Hb'.
  assert (Hin : In b (successes rs)) by now apply (best_In _ _ _ Hb).
  assert (Hin' : In b' (successes rs)).
  { apply best_In in Hb'. apply successes_In in Hb' as [H1 H2].
    apply successes_In. split; [| exact H2].
    now apply (Permutation_in _ (Permutation_sym Hp)). }
  assert (Hin2 : In b (successes rs')).
  { apply successes_In in Hin as [H1 H2]. apply successes_In. split; [| exact H2].
    now apply (Permutation_in _ Hp). }
  assert (E : b = b').
  { apply Hu; [exact Hin | exact Hin' |].
    apply level_keys.
    - apply (best_unbeaten _ (better_asym cfg req) (better_negtrans cfg req) _ _ Hb' _ Hin2).
    - apply (best_unbeaten _ (better_asym cfg req) (better_negtrans cfg req) _ _ Hb _ Hin'). }
  now rewrite E.
Qed.



(** The scenario of the design document: of two successes with a valid
    code block, the one with an explanation is picked. *)
Example explanation_breaks_tie :
  select (deployment []) fib_request
    [ generate (fixed "groq" Success (Some "def fib(n): return fib_a(n)")
                  None 300%N) fib_request 30000%N
    ; generate (fixed "anthropic" Success (Some "def fib(n): return fib_b(n)")
                  (Some "memoised") 800%N) fib_request 30000%N ]
    None
  = inl {| SelectedResponse.code := "def fib(n): return fib_b(n)";
           SelectedResponse.language := "python";
           SelectedResponse.explanation := "memoised";
           SelectedResponse.sourceProviderId := "anthropic";
           SelectedResponse.qualityScore := 16 |}.
Proof. vm_compute. reflexivity. Qed.

(** ** The router *)

Import RequestRouter.

Lemma results_Permutation cfg deadline req :
  results (route cfg deadline req) ≡ₚ
  List.map (collect deadline req) (candidates cfg req).
Proof. unfold route, routing. cbn [output results]. apply merge_sort_Permutation. Qed.

Lemma candidates_registered cfg req a :
  In a (candidates cfg req) -> In a (registry cfg).
Proof.
  unfold candidates.
  destruct (String.eqb (CodeRequest.requestedModel req) "auto"); [auto |].
  intros H. apply List.filter_In in H. tauto.
Qed.

Lemma collect_cases deadline req a :
  (outstanding deadline (generate a req deadline) = true /\
   collect deadline req a = timedOut a deadline) \/
  (outstanding deadline (generate a req deadline) = false /\
   collect deadline req a = generate a req deadline).
Proof. unfold collect. destruct (outstanding _ _); auto. Qed.

Lemma collect_by_deadline deadline req a :
  (ProviderResult.latency (collect deadline req a) <= deadline)%N.
Proof.
  destruct (collect_cases deadline req a) as [[_ ->] | [Ho ->]].
  - simpl. lia.
  - unfold outstanding in Ho. apply orb_false_iff in Ho as [_ Ho].
    apply N.ltb_ge in Ho. exact Ho.
Qed.

Lemma max_bounded (l : list N) (bound : N) :
  Forall (fun x => (x <= bound)%N) l -> (List.fold_right N.max 0%N l <= bound)%N.
Proof. induction 1; simpl; lia. Qed.

Lemma finished_by_deadline cfg deadline req :
  (finishedAt (routing cfg deadline req) <= deadline)%N.
Proof.
  unfold routing. cbn [finishedAt]. apply max_bounded.
  apply List.Forall_forall. intros x Hx.
  apply List.in_map_iff in Hx as (r & <- & Hr).
  apply List.in_map_iff in Hr as (a & <- & _).
  apply collect_by_deadline.
Qed.

Lemma result_origin cfg deadline req r :
  In r (results (route cfg deadline req)) ->
  exists a, In a (candidates cfg req) /\ r = collect deadline req a.
Proof.
  intros Hr. apply (Permutation_in _ (results_Permutation cfg deadline req)) in Hr.
  apply List.in_map_iff in Hr as (a & <- & Ha). eauto.
Qed.

Lemma collect_id cfg deadline req a :
  well_registered cfg -> In a (registry cfg) ->
  ProviderResult.providerId (collect deadline req a) = adapterId a.
Proof.
  intros (_ & _ & Hlab) Ha.
  destruct (collect_cases deadline req a) as [[_ ->] | [_ ->]];
    [reflexivity | now apply Hlab].
Qed.

Lemma NoDup_map_filter {A B} (f : A -> B) (p : A -> bool) (l : list A) :
  List.NoDup (List.map f l) -> List.NoDup (List.map f (List.filter p l)).
Proof.
  induction l as [| x l IH]; cbn [List.map List.filter]; [auto |].
  intros [Hx Hl]%List.NoDup_cons_iff. destruct (p x); [| auto].
  cbn [List.map]. apply List.NoDup_cons_iff. split; [| auto].
  intros Hin. apply Hx. apply List.in_map_iff in Hin as (y & <- & Hy).
  apply List.in_map. apply List.filter_In in Hy. tauto.
Qed.

Lemma filter_Permutation_list {A} (p : A -> bool) (l l' : list A) :
  l ≡ₚ l' -> List.filter p l ≡ₚ List.filter p l'.
Proof.
  induction 1 as [| x l l' _ IH | x y l | l l' l'' _ IH1 _ IH2];
    cbn [List.filter].
  - reflexivity.
  - destruct (p x); [now constructor | exact IH].
  - destruct (p x), (p y); try reflexivity. apply Permutation_swap.
  - now transitivity (List.filter p l').
Qed.

(** What a routing over a well-registered configuration hands to the
    selector: at most one Success per provider, each from a provider of
    the ranking list. *)
Lemma routed_successes cfg deadline req :
  well_registered cfg ->
  List.NoDup (List.map ProviderResult.providerId
                (successes (results (route cfg deadline req)))) /\
  (forall r, In r (successes (results (route cfg deadline req))) ->
             In (ProviderResult.providerId r) (ranking cfg)).
Proof.
  intros Hcfg. pose proof Hcfg as (Hnd & Hranked & _). split.
  - assert (Hp : List.map ProviderResult.providerId
                   (successes (results (route cfg deadline req)))
                 ≡ₚ List.map ProviderResult.providerId
                      (successes (List.map (collect deadline req)
                                    (candidates cfg req)))).
    { apply Permutation_map. unfold successes. apply filter_Permutation_list.
      apply results_Permutation. }
    apply (Permutation_NoDup (Permutation_sym Hp)).
    apply NoDup_map_filter. rewrite List.map_map.
    rewrite (List.map_ext_in _ adapterId).
    + unfold candidates.
      destruct (String.eqb (CodeRequest.requestedModel req) "auto");
        [exact Hnd | now apply NoDup_map_filter].
    + intros a Ha. apply (collect_id cfg); [exact Hcfg |].
      now apply (candidates_registered cfg req).
  - intros r [Hr _]%successes_In.
    destruct (result_origin cfg deadline req r Hr) as (a & Ha & ->).
    apply (candidates_registered cfg req) in Ha.
    rewrite (collect_id cfg deadline req a Hcfg Ha). now apply Hranked.
Qed.

(** The pipeline's answer over a well-registered configuration is the
    selector's on any other arrival order of the same results. *)
Lemma pipeline_any_arrival cfg deadline req rs' :
  well_registered cfg ->
  results (route cfg deadline req) ≡ₚ rs' ->
  has_success (results (route cfg deadline req)) = true ->
  select cfg req rs' (fallback (route cfg deadline req))
  = pipeline cfg deadline req.
Proof.
  intros Hcfg Hp Hs. unfold pipeline. symmetry.
  destruct (routed_successes cfg deadline req Hcfg) as [Hnd Hranked].
  apply untied_order_independent; [exact Hp | exact Hs |].
  now apply ranked_providers_untied.
Qed.

Example sample_well_registered : well_registered sample_deployment.
Proof.
  split; [| split].
  - cbn. repeat constructor; cbn; intuition discriminate.
  - intros a [<- | [<- | [<- | []]]]; cbn; auto.
  - intros a req deadline [<- | [<- | [<- | []]]]; reflexivity.
Qed.

(** C7. An invoked adapter whose answer would come after the deadline
    is recorded under its own id as [TimedOut] (whatever status its late
    answer would have had), that record is among the results, and the
    router returns no later than the deadline. *)
Theorem late_adapter_timed_out cfg deadline req a :
  In a (candidates cfg req) ->
  (deadline < ProviderResult.latency (generate a req deadline))%N ->
  ProviderResult.status (collect deadline req a) = TimedOut /\
  ProviderResult.providerId (collect deadline req a) = adapterId a /\
  In (collect deadline req a) (results (route cfg deadline req)) /\
  (finishedAt (routing cfg deadline req) <= deadline)%N.
Proof.
  intros Ha Hlate.
  assert (Ho : outstanding deadline (generate a req deadline) = true).
  { unfold outstanding. apply orb_true_iff. right. now apply N.ltb_lt. }
  unfold collect at 1 2. rewrite Ho. 
  split; [reflexivity | split; [reflexivity | split]].
  - apply (Permutation_in _ (Permutation_sym (results_Permutation cfg deadline req))).
    apply List.in_map. exact Ha.
  - apply finished_by_deadline.
Qed.

Lemma late_adapter_timed_out_witness :
  In anthropic_slow
     (candidates (deployment [openai_ok; groq_down; anthropic_slow]) fib_request) /\
  ProviderResult.status (collect 30000%N fib_request anthropic_slow) = TimedOut /\
  (finishedAt (routing (deployment [openai_ok; groq_down; anthropic_slow])
                 30000%N fib_request) <= 30000)%N.
Proof.
  assert (Ha : In anthropic_slow
                 (candidates (deployment [openai_ok; groq_down; anthropic_slow])
                    fib_request)) by (cbn; auto).
  pose proof (late_adapter_timed_out
                (deployment [openai_ok; groq_down; anthropic_slow])
                30000%N fib_request anthropic_slow Ha eq_refl) as H.
  split; [exact Ha | split; [exact (proj1 H) | exact (proj2 (proj2 (proj2 H)))]].
Defined.

(** ** The fallback path *)

Lemma no_success_best cfg req rs :
  has_success rs = false -> best (better cfg req) (successes rs) = None.
Proof.
  intros H. apply best_None.
  destruct (successes rs) as [| r l] eqn:E; [reflexivity |].
  assert (Hr : In r (successes rs)) by (rewrite E; left; reflexivity).
  apply successes_In in Hr as [Hr Hs].
  assert (has_success rs = true) by (apply has_success_In; eauto).
  congruence.
Qed.

Lemma match_fallback cfg req fb :
  FallbackTemplateEngine.match_ cfg req = Some fb ->
  SelectedResponse.sourceProviderId fb = "fallback" /\
  exists t, In t (catalog cfg) /\
            SelectedResponse.code fb = render t (CodeRequest.language req).
Proof.
  unfold FallbackTemplateEngine.match_, FallbackTemplateEngine.best_template.
  destruct (best _ (catalog cfg)) as [t |] eqn:Ht; [| discriminate].
  destruct (Nat.ltb _ _); [| discriminate]. intros [= <-].
  split; [reflexivity |]. exists t. split; [| reflexivity].
  now apply (best_In _ _ _ Ht).
Qed.

(** The scenario of the design document: with every provider
    unavailable, the fibonacci prompt is answered from the catalog. *)
Example fibonacci_from_fallback :
  pipeline (deployment [groq_down]) 30000%N fib_request
  = inl {| SelectedResponse.code :=
             "def fib(n): return n if n < 2 else fib(n-1) + fib(n-2)";
           SelectedResponse.language := "python";
           SelectedResponse.explanation := "Recursive Fibonacci";
           SelectedResponse.sourceProviderId := "fallback";
           SelectedResponse.qualityScore := 80 |}.
Proof. vm_compute. reflexivity. Qed.

(** C2, amended. Unless the caller has cancelled the request (deadline
    zero), a routing in which no adapter result is a Success, which
    includes a routing with no adapter at all, invokes the fallback engine
    and attaches its answer; and when the fallback answers, the pipeline
    returns that answer, whose sourceProviderId is ["fallback"]. *)
Theorem fallback_when_no_success cfg deadline req :
  deadline <> 0%N ->
  has_success (results (route cfg deadline req)) = false ->
  fallbackInvoked (routing cfg deadline req) = true /\
  fallback (route cfg deadline req) = FallbackTemplateEngine.match_ cfg req /\
  forall fb,
    FallbackTemplateEngine.match_ cfg req = Some fb ->
    pipeline cfg deadline req = inl fb /\
    SelectedResponse.sourceProviderId fb = "fallback".
Proof.
  intros Hd Hs.
  assert (Hz : (deadline =? 0)%N = false) by now apply N.eqb_neq.
  assert (Hf : fallback (route cfg deadline req)
               = FallbackTemplateEngine.match_ cfg req).
  { unfold route, routing in *. cbn [output results fallback] in *.
    now rewrite Hz, Hs. }
  split; [| split; [exact Hf |]].
  - unfold route, routing in *. cbn [output results fallbackInvoked] in *.
    now rewrite Hz, Hs.
  - intros fb Hfb. split; [| now apply (match_fallback cfg req)].
    unfold pipeline, select. rewrite (no_success_best cfg req _ Hs), Hf, Hfb.
    reflexivity.
Qed.

(** C2 as stated fails: on a cancelled request no adapter
    result is a Success and the template matches, yet the fallback engine
    is not invoked and the pipeline fails. *)
Lemma cancelled_skips_fallback :
  has_success (results (route (deployment [groq_down]) 0%N fib_request)) = false /\
  is_Some (FallbackTemplateEngine.match_ (deployment [groq_down]) fib_request) /\
  fallbackInvoked (routing (deployment [groq_down]) 0%N fib_request) = false /\
  pipeline (deployment [groq_down]) 0%N fib_request = inr NoViableCandidate.
Proof.
  split; [reflexivity | split; [| split; reflexivity]].
  vm_compute. eauto.
Qed.

Lemma fallback_when_no_success_witness :
  30000%N <> 0%N /\
  has_success (results (route (deployment [groq_down]) 30000%N fib_request)) = false /\
  fallbackInvoked (routing (deployment [groq_down]) 30000%N fib_request) = true.
Proof.
  assert (Hd : 30000%N <> 0%N) by discriminate.
  split; [exact Hd | split; [reflexivity |]].
  exact (proj1 (fallback_when_no_success (deployment [groq_down]) 30000%N
                  fib_request Hd eq_refl)).
Defined.

(** ** Materializing a response *)

Import ProjectMaterializer.

Example materialize_sample :
  read_files
    (fst (materialize sample_settings 0%N {| projects := ∅; disk := ∅ |}
            sample_response))
    (Project.id (snd (materialize sample_settings 0%N
                        {| projects := ∅; disk := ∅ |} sample_response)))
  = inl [ ("main.py",
           Some (String.list_byte_of_string
                   "def fib(n): return fib_iter(n, 0, 1)")) ].
Proof. vm_compute. reflexivity. Qed.

(** C6. Materializing a SelectedResponse creates a project under an id
    that was not in use, and reading that project's files back gives one
    file whose bytes are those of the response's code: decoded, they are
    the code again. *)
Theorem materialize_round_trip st now s resp :
  let s' := fst (materialize st now s resp) in
  let project := snd (materialize st now s resp) in
  projects s !! Project.id project = None /\
  read_files s' (Project.id project) =
    inl [ (entry_path st (SelectedResponse.language resp),
           Some (String.list_byte_of_string (SelectedResponse.code resp))) ] /\
  List.map (fun f => String.string_of_list_byte (ProjectFile.content f))
           (Project.files project)
  = [SelectedResponse.code resp].
Proof.
  cbn [materialize fst snd Project.id Project.files].
  split; [| split].
  - apply not_elem_of_dom. apply is_fresh.
  - unfold read_files. cbn [projects disk].
    rewrite lookup_insert_eq. cbn [Project.files List.map ProjectFile.relativePath].
    unfold write_files. cbn [List.fold_right ProjectFile.relativePath ProjectFile.content].
    now rewrite lookup_insert_eq.
  - cbn [List.map ProjectFile.content].
    now rewrite String.string_of_list_byte_of_string.
Qed.

End CoreProps.

(** * Properties of the rest of the front end *)

Module WorkspaceProps.
Import JS Frontend Workspace.
Import FrontendProps.

(** ** Running [handleNewProject] *)

(** The page after [handleNewProject]: untouched but for one console
    entry when the request fails or is refused; with the new project in
    front and the tab switched when the reply reports success, and then
    either the success message in the chat or, when its text cannot be put
    together, the TypeError in the console. *)
Lemma new_project_run backend msgs (w : World Page) s0 :
  run w (handleNewProject backend msgs) s0 =
  let s1 := meanwhile w s0 in
  let logged := fun entry =>
    {| activeTab := activeTab s1; projects := projects s1;
       messages := messages s1; console := console s1 ++ [entry] |} in
  {| state :=
       Returned
         match bind (network w (projects_request backend)) json with
         | Thrown error => logged (LogError "Error creating project:" error)
         | Returned data =>
             if nullish data then
               logged (LogError "Error creating project:"
                         (cannot_read data "success"))
             else if truthy (read data "success") then
               if announced data then
                 {| activeTab := "projects";
                    projects := project_of data :: projects s1;
                    messages :=
                      messages s1 ++
                      [ {| Frontend.id := length msgs + 1;
                           message := created_text data;
                           isUser := false;
                           timestamp := clock w 0;
                           isTyping := Undefined;
                           code := Undefined;
                           language := Undefined |} ];
                    console := console s1 |}
               else
                 {| activeTab := "projects";
                    projects := project_of data :: projects s1;
                    messages := messages s1;
                    console :=
                      console s1 ++
                      [LogError "Error creating project:" cannot_convert] |}
             else logged (LogValue "Failed to create project:" (read data "error"))
         end;
     sent := [projects_request backend];
     result := tt |}.
Proof.
  unfold run, handleNewProject. cbn -[projects_request get interpolate].
  destruct (network w (projects_request backend)) as [resp | e];
    cbn -[projects_request get interpolate]; [| reflexivity].
  destruct (json resp) as [data | e];
    cbn -[projects_request get interpolate]; [| reflexivity].
  destruct (nullish data) eqn:Hn.
  { destruct data; try discriminate Hn; reflexivity. }
  rewrite !(get_read data _ Hn). cbn -[projects_request interpolate].
  destruct (truthy (read data "success"));
    cbn -[projects_request interpolate]; [| reflexivity].
  unfold announced, created_text, project_of.
  destruct (converts (read data "project_name")) eqn:H1;
    [rewrite (interpolate_converts _ H1)
    | rewrite (interpolate_throws _ H1); reflexivity].
  cbn -[projects_request interpolate].
  destruct (converts (read data "files_created")) eqn:H2;
    [rewrite (interpolate_converts _ H2)
    | rewrite (interpolate_throws _ H2); reflexivity].
  cbn -[projects_request interpolate].
  destruct (converts (read data "project_id")) eqn:H3;
    [rewrite (interpolate_converts _ H3)
    | rewrite (interpolate_throws _ H3); reflexivity].
  reflexivity.
Qed.

(** ** The chat handler, from send to answer *)

Lemma withoutTyping_id l : Forall not_typing l -> withoutTyping l = l.
Proof.
  unfold withoutTyping, not_typing. induction 1 as [| m l Hm _ IH]; [reflexivity |].
  cbn [List.filter]. rewrite Hm. cbn [negb]. now rewrite IH.
Qed.

Lemma withoutTyping_app l1 l2 :
  withoutTyping (l1 ++ l2) = withoutTyping l1 ++ withoutTyping l2.
Proof. unfold withoutTyping. apply List.filter_app. Qed.

Lemma onReply_ext data t prev prev' :
  withoutTyping prev = withoutTyping prev' ->
  onReply data t prev = onReply data t prev'.
Proof. unfold onReply. cbv zeta. intros ->. reflexivity. Qed.

Lemma onError_ext e t prev prev' :
  withoutTyping prev = withoutTyping prev' ->
  onError e t prev = onError e t prev'.
Proof. unfold onError. cbv zeta. intros ->. reflexivity. Qed.

Lemma send_run backend msgs input (w : World Dashboard) s0 :
  trim input <> "" ->
  (forall s, meanwhile w s = s) ->
  let user :=
    {| Frontend.id := length msgs + 1; message := input; isUser := true;
       timestamp := clock w 0; isTyping := Undefined;
       code := Undefined; language := Undefined |} in
  let prev := Frontend.messages s0 ++ [user] in
  run w (handleSendMessage backend msgs input) s0 =
  {| state :=
       bind (match bind (network w (chat_request backend input)) json with
             | Returned data => onReply data (clock w 2) prev
             | Thrown e => onError e (clock w 2) prev
             end)
            (fun ms => Returned {| Frontend.messages := ms; inputMessage := "" |});
     sent := [chat_request backend input];
     result := tt |}.
Proof.
  intros Hne Hquiet user prev. subst prev user. unfold handleSendMessage.
  destruct (String.eqb (trim input) "") eqn:E.
  { apply String.eqb_eq in E. contradiction. }
  cbn [truthy negb]. rewrite E. cbn [negb]. unfold run.
  cbn -[onReply onError chat_request]. rewrite Hquiet.
  cbn [Frontend.messages inputMessage].
  assert (Hw : forall u x, truthy (isTyping x) = true ->
                 withoutTyping ((Frontend.messages s0 ++ [u]) ++ [x])
                 = withoutTyping (Frontend.messages s0 ++ [u])).
  { intros u x Hx. rewrite withoutTyping_app. unfold withoutTyping at 2.
    cbn [List.filter]. rewrite Hx. cbn [negb]. now rewrite app_nil_r. }
  destruct (network w (chat_request backend input)) as [resp | e];
    cbn -[onReply onError chat_request].
  - destruct (json resp) as [data | e]; cbn -[onReply onError chat_request].
    + match goal with
      | |- context [onReply data ?t ((_ ++ [?u]) ++ [?x])] =>
          now rewrite (onReply_ext data t _ _ (Hw u x eq_refl))
      end.
    + match goal with
      | |- context [onError e ?t ((_ ++ [?u]) ++ [?x])] =>
          now rewrite (onError_ext e t _ _ (Hw u x eq_refl))
      end.
  - match goal with
    | |- context [onError e ?t ((_ ++ [?u]) ++ [?x])] =>
        now rewrite (onError_ext e t _ _ (Hw u x eq_refl))
    end.
Qed.

Lemma send_settles backend msgs input (w : World Dashboard) s0 :
  trim input <> "" ->
  (forall s, meanwhile w s = s) ->
  Forall not_typing (Frontend.messages s0) ->
  (forall data,
     bind (network w (chat_request backend input)) json = Returned data ->
     presentable data = true) ->
  exists final,
    state (run w (handleSendMessage backend msgs input) s0) =
    Returned
      {| Frontend.messages :=
           Frontend.messages s0 ++
           [ {| Frontend.id := length msgs + 1; message := input; isUser := true;
                timestamp := clock w 0; isTyping := Undefined;
                code := Undefined; language := Undefined |}
           ; final ];
         inputMessage := "" |} /\
    Frontend.id final = length (Frontend.messages s0) + 2 /\
    isUser final = false /\
    not_typing final /\
    (forall data,
       bind (network w (chat_request backend input)) json = Returned data ->
       final = answer data (clock w 2) (length (Frontend.messages s0) + 2)).
Proof.
  intros Hne Hquiet Hclean Hok.
  rewrite (send_run backend msgs input w s0 Hne Hquiet). cbn [state].
  set (user := {| Frontend.id := length msgs + 1 |}).
  assert (Hprev : withoutTyping (Frontend.messages s0 ++ [user])
                  = Frontend.messages s0 ++ [user]).
  { apply withoutTyping_id. apply List.Forall_app. split; [exact Hclean |].
    constructor; [reflexivity | constructor]. }
  assert (Hlen : length (Frontend.messages s0 ++ [user]) + 1
                 = length (Frontend.messages s0) + 2).
  { rewrite length_app. cbn [length]. lia. }
  destruct (bind (network w (chat_request backend input)) json) as [data | e].
  - rewrite (onReply_answer data _ _ (Hok data eq_refl)). rewrite Hprev, Hlen.
    cbn [bind]. eexists. split.
    { rewrite <- app_assoc. reflexivity. }
    split; [| split; [| split]].
    + unfold answer. destruct (generated data); reflexivity.
    + unfold answer. destruct (generated data); reflexivity.
    + apply answer_not_typing.
    + intros d [= <-]. reflexivity.
  - unfold onError. cbv zeta. rewrite Hprev, Hlen. cbn [bind]. eexists. split.
    { rewrite <- app_assoc. reflexivity. }
    split; [reflexivity | split; [reflexivity | split; [reflexivity |]]].
    intros d Hd. discriminate Hd.
Qed.



Lemma well_numbered_snoc ms m :
  well_numbered ms -> Frontend.id m = length ms + 1 -> well_numbered (ms ++ [m]).
Proof.
  unfold well_numbered. intros H Hm.
  rewrite List.map_app, length_app, H. cbn [List.map length].
  rewrite List.seq_app. cbn [List.seq]. rewrite Hm.
  f_equal. f_equal. lia.
Qed.

(** X5. If the chat is numbered 1, 2, 3, ... with no typing indicator
    in it, the handler was made by the render that shows it, nothing else
    touches it meanwhile, and the reply, if one comes back, can be
    answered, then after a non-blank send it is still numbered 1, 2, 3,
    ..., two messages longer. *)
Theorem send_keeps_numbering backend msgs input (w : World Dashboard) s0 :
  trim input <> "" ->
  (forall s, meanwhile w s = s) ->
  Frontend.messages s0 = msgs ->
  Forall not_typing msgs ->
  well_numbered msgs ->
  (forall data,
     bind (network w (chat_request backend input)) json = Returned data ->
     presentable data = true) ->
  exists s',
    state (run w (handleSendMessage backend msgs input) s0) = Returned s' /\
    well_numbered (Frontend.messages s') /\
    length (Frontend.messages s') = length msgs + 2.
Proof.
  intros Hne Hquiet Hs Hclean Hnum Hok. subst msgs.
  destruct (send_settles backend (Frontend.messages s0) input w s0
              Hne Hquiet Hclean Hok) as (final & -> & Hid & _).
  eexists. split; [reflexivity |]. cbn [Frontend.messages]. split.
  - change [?a; final] with ([a] ++ [final]). rewrite app_assoc.
    apply well_numbered_snoc.
    + apply well_numbered_snoc; [exact Hnum | reflexivity].
    + rewrite length_app. cbn [length]. lia.
  - rewrite length_app. cbn [length]. lia.
Qed.

Lemma send_keeps_numbering_witness :
  well_numbered (Frontend.messages sample_dashboard) /\
  presentable sample_reply = true /\
  exists s',
    state (run (quiet_world (Returned {| json := Returned sample_reply |}))
             (handleSendMessage (Str "http://localhost:8001")
                (Frontend.messages sample_dashboard) "write fibonacci")
             sample_dashboard) = Returned s' /\
    well_numbered (Frontend.messages s') /\
    length (Frontend.messages s') = 3.
Proof.
  assert (Hne : trim "write fibonacci" <> "") by (vm_compute; discriminate).
  assert (Hnum : well_numbered (Frontend.messages sample_dashboard)) by reflexivity.
  split; [exact Hnum | split; [reflexivity |]].
  apply (send_keeps_numbering (Str "http://localhost:8001")
           (Frontend.messages sample_dashboard) "write fibonacci"
           (quiet_world (Returned {| json := Returned sample_reply |}))
           sample_dashboard Hne (fun s => eq_refl) eq_refl);
    [repeat constructor | exact Hnum |].
  intros data H. cbn in H. injection H as <-. reflexivity.
Defined.

(** ** What [JSON.stringify] does to a parsed reply *)

Lemma JSON_stringify_json : forall v, is_json v = true -> JSON_stringify v = v.
Proof.
  fix IH 1. intros [| | b | n | s | items | props] H; try reflexivity.
  - cbn [JSON_stringify]. f_equal. cbn [is_json] in H.
    induction items as [| x l IHl]; [reflexivity |].
    cbn [List.forallb] in H. apply andb_true_iff in H as [Hx Hl].
    cbn [List.map]. rewrite (IHl Hl). f_equal.
    rewrite (IH x Hx). destruct x; try reflexivity. discriminate Hx.
  - cbn [JSON_stringify]. f_equal. cbn [is_json] in H.
    induction props as [| [k x] l IHl]; [reflexivity |].
    cbn [List.forallb snd] in H. apply andb_true_iff in H as [Hx Hl].
    cbn [List.fold_right fst snd]. rewrite (IHl Hl).
    rewrite (IH x Hx). destruct x; try reflexivity. discriminate Hx.
Qed.

Lemma lookup_prop_json k props :
  List.forallb (fun kv => is_json (snd kv)) props = true ->
  lookup_prop k props = Undefined \/ is_json (lookup_prop k props) = true.
Proof.
  induction props as [| [k' v] l IH]; cbn [lookup_prop List.forallb snd]; [auto |].
  intros [Hv Hl]%andb_true_iff. destruct (String.eqb k k'); auto.
Qed.

Lemma read_json v k :
  is_json v = true -> read v k = Undefined \/ is_json (read v k) = true.
Proof.
  destruct v; intros H; try discriminate H; try (left; reflexivity).
  unfold read. cbn [get]. now apply lookup_prop_json.
Qed.

Lemma truthy_json v k :
  is_json v = true -> truthy (read v k) = true -> is_json (read v k) = true.
Proof.
  intros H Ht. destruct (read_json v k H) as [E | E]; [| exact E].
  rewrite E in Ht. discriminate Ht.
Qed.

(** ** From a chat answer to Run Code *)

Lemma executeCode_sent backend code language (w : World Value) s0 :
  sent (run w (executeCode backend code language) s0)
  = [execute_request backend code language].
Proof.
  unfold run, executeCode. cbn -[execute_request].
  destruct (network w _) as [resp | e]; cbn -[execute_request];
    [destruct (json resp) |]; reflexivity.
Qed.

(** X6. Of the messages the chat handler answers with, the one made
    from a reply that can be answered offers Run Code exactly when the
    reply reports success twice over and carries truthy code; the
    connection error never does. *)
Theorem run_button_only_on_code data e t prev :
  presentable data = true ->
  (exists m,
     onReply data t prev = Returned (withoutTyping prev ++ [m]) /\
     showExecuteButton (code m) (isUser m) =
       truthy (read data "success") &&
       truthy (read (read data "response") "success") &&
       truthy (read (read data "response") "code")) /\
  (exists m,
     onError e t prev = Returned (withoutTyping prev ++ [m]) /\
     showExecuteButton (code m) (isUser m) = false).
Proof.
  intros Hr. split.
  - eexists. split; [apply (onReply_answer data t prev Hr) |].
    unfold answer, generated, showExecuteButton.
    destruct (truthy (read data "success") &&
              truthy (read (read data "response") "success"));
      cbn [code isUser negb truthy andb]; [now rewrite andb_true_r | reflexivity].
  - eexists. split; reflexivity.
Qed.

Lemma run_button_only_on_code_witness :
  presentable sample_reply = true /\
  exists m,
    onReply sample_reply "09:00:02" [] = Returned (withoutTyping [] ++ [m]) /\
    showExecuteButton (code m) (isUser m) = true.
Proof.
  split; [reflexivity |].
  destruct (run_button_only_on_code sample_reply (Rejected "Failed to fetch")
              "09:00:02" [] eq_refl) as ((m & H1 & H2) & _).
  exists m. split; [exact H1 | exact H2].
Defined.

(** X7. A parsed reply that can be answered gets an answer, and when
    the Run Code button of that answer is pressed, the request carries the
    reply's code unchanged, the reply's language, or python when that is
    falsy, and the demo user. *)
Theorem run_code_sends_generated_code backend data t prev :
  is_json data = true ->
  presentable data = true ->
  exists m,
    onReply data t prev = Returned (withoutTyping prev ++ [m]) /\
    forall p (w : World Value) s0,
      onClick backend (code m) (language m) (isUser m) = Some p ->
      sent (run w p s0) =
      [ {| url := ToString backend +:+ "/api/execute";
           method := "POST";
           headers := json_headers;
           body :=
             Obj [ ("code", read (read data "response") "code")
                 ; ("language",
                    or_else (read (read data "response") "language") (Str "python"))
                 ; ("user_id", Str "demo-user") ] |} ].
Proof.
  intros Hj Hr. eexists. split; [apply (onReply_answer data t prev Hr) |].
  intros p w s0 Hp.
  unfold onClick, showExecuteButton in Hp.
  destruct (truthy (code (answer data t (length (withoutTyping prev) + 1)))) eqn:Hc;
    [| discriminate Hp].
  destruct (isUser (answer data t (length (withoutTyping prev) + 1)));
    [discriminate Hp |].
  cbn [negb andb] in Hp. injection Hp as <-. rewrite executeCode_sent.
  unfold answer, generated in *.
  destruct (truthy (read data "success") &&
            truthy (read (read data "response") "success")) eqn:Hok;
    cbn [code language] in *; [| discriminate Hc].
  set (response := read data "response") in *.
  assert (Hresp : is_json response = true).
  { destruct (read_json data "response" Hj) as [E | E]; [| exact E].
    fold response in E. rewrite E in Hc. discriminate Hc. }
  assert (Hcode : is_json (read response "code") = true)
    by now apply truthy_json.
  assert (Hlang : is_json (or_else (read response "language") (Str "python")) = true).
  { unfold or_else. destruct (truthy (read response "language")) eqn:Hl;
      [now apply truthy_json | reflexivity]. }
  unfold execute_request. f_equal. f_equal.
  apply JSON_stringify_json. cbn [is_json List.forallb snd].
  now rewrite Hcode, Hlang.
Qed.

Lemma run_code_sends_generated_code_witness :
  is_json sample_reply = true /\
  presentable sample_reply = true /\
  exists m,
    onReply sample_reply "09:00:02" [] = Returned (withoutTyping [] ++ [m]) /\
    sent (run sample_executor
            (executeCode (Str "http://localhost:8001") (code m) (language m)) Null)
    = [ {| url := "http://localhost:8001/api/execute";
           method := "POST";
           headers := json_headers;
           body := Obj [ ("code", Str "print(1)")
                       ; ("language", Str "python")
                       ; ("user_id", Str "demo-user") ] |} ].
Proof.
  split; [reflexivity | split; [reflexivity |]].
  destruct (run_code_sends_generated_code (Str "http://localhost:8001")
              sample_reply "09:00:02" [] eq_refl eq_refl) as (m & H1 & H2).
  exists m. split; [exact H1 |].
  assert (E : Returned (withoutTyping [] ++ [m])
              = Returned (withoutTyping [] ++
                          [answer sample_reply "09:00:02"
                             (length (withoutTyping ([] : list Message)) + 1)]))
    by (rewrite <- H1; reflexivity).
  injection E as ->.
  exact (H2 _ sample_executor Null eq_refl).
Defined.

(** ** The result pane *)

Lemma pane_never_throws v : exists p, executionResultPane v = Returned p.
Proof.
  unfold executionResultPane.
  destruct v as [| | [] | n | s | items | props]; cbn [truthy];
    try (eexists; reflexivity).
  - destruct (negb (n =? 0)%Z); eexists; reflexivity.
  - destruct (negb (String.eqb s "")); eexists; reflexivity.
  - cbn [get bind]. destruct (truthy (lookup_prop "success" props));
      eexists; reflexivity.
Qed.

(** X8. After Run Code the JSX of the result pane can always be
    evaluated, whatever the back end did: for a reply it is the pane of that reply, and for a
    request that failed or a body that is not JSON it is the red pane with
    the error's message. *)
Theorem run_code_pane backend code language (w : World Value) s0 :
  exists pane,
    bind (state (run w (executeCode backend code language) s0)) executionResultPane
    = Returned pane /\
    match bind (network w (execute_request backend code language)) json with
    | Returned result => executionResultPane result = Returned pane
    | Thrown e => pane = ErrorPane "Error: " (Str (error_message e))
    end.
Proof.
  unfold run, executeCode. cbn -[execute_request executionResultPane].
  destruct (network w _) as [resp | e]; cbn -[execute_request executionResultPane].
  - destruct (json resp) as [result | e]; cbn -[execute_request executionResultPane].
    + destruct (pane_never_throws result) as (pane & Hp).
      exists pane. now rewrite Hp.
    + eexists. split; reflexivity.
  - eexists. split; reflexivity.
Qed.

(** ** [handleDeleteProject] *)

Lemma strict_equal_primitive a b :
  primitive b = true -> exists r, strict_equal a b = Some r.
Proof.
  destruct b; intros H; try discriminate H; destruct a; eexists; reflexivity.
Qed.

Lemma strict_equal_refl a : primitive a = true -> strict_equal a a = Some true.
Proof.
  destruct a as [| | [] | n | s | |]; intros H; try discriminate H; cbn;
    try reflexivity.
  - now rewrite Z.eqb_refl.
  - now rewrite String.eqb_refl.
Qed.

(** X9. Deleting by an id that is not an array or object always goes
    through: the projects kept are, in their old order, exactly those
    whose id differs from it. *)
Theorem delete_removes_matches projectId prev :
  primitive projectId = true ->
  exists kept,
    handleDeleteProject projectId prev = Some kept /\
    sublist kept prev /\
    forall p, In p kept <-> In p prev /\ differs projectId p.
Proof.
  intros Hp. induction prev as [| q rest (kept & IH & Hsub & Hin)].
  - exists []. split; [reflexivity | split; [constructor |]].
    intros p. cbn. tauto.
  - cbn [handleDeleteProject]. rewrite IH.
    destruct (strict_equal_primitive (Project.id q) projectId Hp) as ([] & E);
      rewrite E; cbn [negb].
    + exists kept. split; [reflexivity | split; [now constructor |]].
      intros p. rewrite Hin. cbn [In]. split; [tauto |].
      intros [[<- | H] Hd]; [| tauto]. unfold differs in Hd. congruence.
    + exists (q :: kept). split; [reflexivity | split; [now constructor |]].
      intros p. cbn [In]. rewrite Hin. split; [| tauto].
      intros [<- | H]; [| tauto]. split; [tauto | exact E].
Qed.

Lemma delete_removes_matches_witness :
  primitive (Str "1") = true /\
  exists kept,
    handleDeleteProject (Str "1") (projects sample_page) = Some kept /\
    sublist kept (projects sample_page).
Proof.
  split; [reflexivity |].
  destruct (delete_removes_matches (Str "1") (projects sample_page) eq_refl)
    as (kept & H1 & H2 & _).
  exists kept. split; [exact H1 | exact H2].
Defined.

Lemma delete_absent projectId prev :
  Forall (differs projectId) prev ->
  handleDeleteProject projectId prev = Some prev.
Proof.
  induction 1 as [| p rest Hp _ IH]; [reflexivity |].
  cbn [handleDeleteProject]. unfold differs in Hp. now rewrite Hp, IH.
Qed.

Lemma delete_differs projectId prev kept :
  handleDeleteProject projectId prev = Some kept ->
  Forall (differs projectId) kept.
Proof.
  revert kept. induction prev as [| p rest IH]; intros kept.
  - intros [= <-]. constructor.
  - cbn [handleDeleteProject].
    destruct (strict_equal (Project.id p) projectId) as [[] |] eqn:E;
      [| | discriminate];
      destruct (handleDeleteProject projectId rest) as [kept' |];
      try discriminate; cbn [negb]; intros [= <-]; auto.
Qed.

(** X10. Deleting the same id a second time changes nothing. *)
Theorem delete_twice projectId prev kept :
  handleDeleteProject projectId prev = Some kept ->
  handleDeleteProject projectId kept = Some kept.
Proof. intros H. apply delete_absent. now apply (delete_differs _ prev). Qed.

Lemma delete_twice_witness :
  handleDeleteProject (Num 1) (projects sample_page) = Some [] /\
  handleDeleteProject (Num 1) [] = Some [].
Proof.
  split; [reflexivity |].
  exact (delete_twice (Num 1) (projects sample_page) [] eq_refl).
Defined.

(** ** [handleNewProject] *)

Lemma projects_request_shape backend :
  url (projects_request backend) = ToString backend +:+ "/api/projects" /\
  method (projects_request backend) = "POST" /\
  fields (body (projects_request backend)) = ["description"; "tech_stack"; "user_id"].
Proof. repeat split. Qed.

(** X1. [handleNewProject] sends exactly one request, a POST to
    [/api/projects] whose body has exactly the fields description,
    tech_stack and user_id, and whatever comes back the page keeps a
    state: no reply makes the handler throw past its [catch]. *)
Theorem new_project_request backend msgs (w : World Page) s0 :
  sent (run w (handleNewProject backend msgs) s0) = [projects_request backend] /\
  url (projects_request backend) = ToString backend +:+ "/api/projects" /\
  method (projects_request backend) = "POST" /\
  fields (body (projects_request backend)) = ["description"; "tech_stack"; "user_id"] /\
  exists s', state (run w (handleNewProject backend msgs) s0) = Returned s'.
Proof.
  rewrite new_project_run. cbv zeta. cbn [sent state].
  split; [reflexivity |]. 
  destruct (projects_request_shape backend) as (H1 & H2 & H3).
  repeat (split; [assumption |]). eexists. reflexivity.
Qed.

(** X2. When the request fails, the body is not JSON, the reply is
    nullish or its [success] is falsy, the handler changes neither the
    tab, nor the projects, nor the chat: it writes one line to the
    console. *)
Theorem new_project_refused backend msgs (w : World Page) s0 :
  (forall data,
     bind (network w (projects_request backend)) json = Returned data ->
     created data = false) ->
  exists entry,
    state (run w (handleNewProject backend msgs) s0) =
    Returned {| activeTab := activeTab (meanwhile w s0);
                projects := projects (meanwhile w s0);
                messages := messages (meanwhile w s0);
                console := console (meanwhile w s0) ++ [entry] |}.
Proof.
  intros H. rewrite new_project_run. cbv zeta. cbn [state].
  destruct (bind (network w (projects_request backend)) json) as [data | e].
  - specialize (H data eq_refl). unfold created in H.
    destruct (nullish data); [eexists; reflexivity |].
    cbn [negb andb] in H. rewrite H. eexists. reflexivity.
  - eexists. reflexivity.
Qed.

Lemma new_project_refused_witness :
  created Null = false /\
  exists entry,
    state (run (project_world (Returned {| json := Returned Null |}))
             (handleNewProject (Str "http://localhost:8001")
                (messages sample_page)) sample_page) =
    Returned {| activeTab := "chat";
                projects := projects sample_page;
                messages := messages sample_page;
                console := [entry] |}.
Proof.
  split; [reflexivity |].
  apply (new_project_refused (Str "http://localhost:8001") (messages sample_page)
           (project_world (Returned {| json := Returned Null |})) sample_page).
  intros data H. cbn in H. injection H as <-. reflexivity.
Defined.

(** X3. When the reply's [success] is truthy, the new project, made of
    the reply's [project_id] and [project_name] with status created, is
    put before the others and the tab becomes projects.  If
    [project_name], [files_created] and [project_id] all convert to
    strings, one message built from them is added at the end of the chat,
    numbered by the [messages] the handler was made with, and the console
    stays as it is; if one of them does not, the chat stays as it is and
    the TypeError is written to the console. *)
Theorem new_project_created backend msgs (w : World Page) s0 data :
  bind (network w (projects_request backend)) json = Returned data ->
  created data = true ->
  state (run w (handleNewProject backend msgs) s0) =
  Returned
    (if announced data then
       {| activeTab := "projects";
          projects := project_of data :: projects (meanwhile w s0);
          messages :=
            messages (meanwhile w s0) ++
            [ {| Frontend.id := length msgs + 1;
                 message := created_text data;
                 isUser := false;
                 timestamp := clock w 0;
                 isTyping := Undefined;
                 code := Undefined;
                 language := Undefined |} ];
          console := console (meanwhile w s0) |}
     else
       {| activeTab := "projects";
          projects := project_of data :: projects (meanwhile w s0);
          messages := messages (meanwhile w s0);
          console :=
            console (meanwhile w s0) ++
            [LogError "Error creating project:"
               (TypeError "Cannot convert object to primitive value")] |}).
Proof.
  intros Hd Hc. rewrite new_project_run. cbv zeta. cbn [state].
  rewrite Hd. unfold created in Hc. apply andb_true_iff in Hc as [Hn Hs].
  apply negb_true_iff in Hn. rewrite Hn, Hs. reflexivity.
Qed.

Lemma new_project_created_witness :
  created created_reply = true /\
  created unlisted_reply = true /\
  state (run (project_world (Returned {| json := Returned created_reply |}))
           (handleNewProject (Str "http://localhost:8001")
              (messages sample_page)) sample_page) =
  Returned
    {| activeTab := "projects";
       projects := project_of created_reply :: projects sample_page;
       messages :=
         messages sample_page ++
         [ {| Frontend.id := 2;
              message := created_text created_reply;
              isUser := false;
              timestamp := "0";
              isTyping := Undefined;
              code := Undefined;
              language := Undefined |} ];
       console := [] |} /\
  state (run (project_world (Returned {| json := Returned unlisted_reply |}))
           (handleNewProject (Str "http://localhost:8001")
              (messages sample_page)) sample_page) =
  Returned
    {| activeTab := "projects";
       projects := project_of unlisted_reply :: projects sample_page;
       messages := messages sample_page;
       console :=
         [LogError "Error creating project:"
            (TypeError "Cannot convert object to primitive value")] |}.
Proof.
  split; [reflexivity | split; [reflexivity | split]].
  - exact (new_project_created (Str "http://localhost:8001") (messages sample_page)
             (project_world (Returned {| json := Returned created_reply |}))
             sample_page created_reply eq_refl eq_refl).
  - exact (new_project_created (Str "http://localhost:8001") (messages sample_page)
             (project_world (Returned {| json := Returned unlisted_reply |}))
             sample_page unlisted_reply eq_refl eq_refl).
Defined.

(** X11. Creating a project and then deleting it by the id the reply
    gave restores the list of projects, provided that id is not an array
    or object and no listed project already has it. *)
Theorem create_then_delete backend msgs (w : World Page) s0 data :
  bind (network w (projects_request backend)) json = Returned data ->
  created data = true ->
  primitive (read data "project_id") = true ->
  Forall (differs (read data "project_id")) (projects (meanwhile w s0)) ->
  exists s',
    state (run w (handleNewProject backend msgs) s0) = Returned s' /\
    handleDeleteProject (read data "project_id") (projects s')
    = Some (projects (meanwhile w s0)).
Proof.
  intros Hd Hc Hp Hfresh.
  rewrite new_project_run. cbv zeta. cbn [state].
  rewrite Hd. unfold created in Hc. apply andb_true_iff in Hc as [Hn Hs].
  apply negb_true_iff in Hn. rewrite Hn, Hs.
  eexists. split; [reflexivity |].
  destruct (announced data);
    cbn [projects handleDeleteProject project_of Project.id];
    rewrite (strict_equal_refl _ Hp), (delete_absent _ _ Hfresh); reflexivity.
Qed.

Lemma create_then_delete_witness :
  created created_reply = true /\
  primitive (read created_reply "project_id") = true /\
  Forall (differs (read created_reply "project_id")) (projects sample_page) /\
  exists s',
    state (run (project_world (Returned {| json := Returned created_reply |}))
             (handleNewProject (Str "http://localhost:8001")
                (messages sample_page)) sample_page) = Returned s' /\
    handleDeleteProject (Str "p-42") (projects s') = Some (projects sample_page).
Proof.
  assert (Hf : Forall (differs (read created_reply "project_id"))
                 (projects sample_page)) by (repeat constructor).
  split; [reflexivity | split; [reflexivity | split; [exact Hf |]]].
  exact (create_then_delete (Str "http://localhost:8001") (messages sample_page)
           (project_world (Returned {| json := Returned created_reply |}))
           sample_page created_reply eq_refl eq_refl eq_refl Hf).
Defined.

(** ** [renderMessage] *)

Lemma strip_prefix_length p s r :
  strip_prefix p s = Some r ->
  String.length s = String.length p + String.length r.
Proof.
  revert s. induction p as [| a p IH]; intros s; cbn [strip_prefix].
  - intros [= <-]. reflexivity.
  - destruct s as [| b s]; [discriminate |].
    destruct (Ascii.eqb a b); [| discriminate].
    intros H. cbn [String.length]. now rewrite (IH s H).
Qed.

Lemma until_stars_length s g r :
  until_stars s = Some (g, r) -> String.length r < String.length s.
Proof.
  revert g. induction s as [| c s IH]; intros g.
  - cbn. discriminate.
  - cbn [until_stars].
    destruct (strip_prefix "**" (String c s)) as [r' |] eqn:E.
    + intros [= <- <-]. apply strip_prefix_length in E. cbn in E |- *. lia.
    + destruct (strip_any line_terminators (String c s)); [discriminate |].
      destruct (until_stars s) as [[g' r'] |]; [| discriminate].
      intros [= <- <-]. specialize (IH g' eq_refl). cbn. lia.
Qed.

Lemma until_fence_length s g r :
  until_fence s = Some (g, r) -> String.length r < String.length s.
Proof.
  revert g. induction s as [| c s IH]; intros g.
  - cbn. discriminate.
  - cbn [until_fence].
    destruct (strip_prefix "```" (String c s)) as [r' |] eqn:E.
    + intros [= <- <-]. apply strip_prefix_length in E. cbn in E |- *. lia.
    + destruct (until_fence s) as [[g' r'] |]; [| discriminate].
      intros [= <- <-]. specialize (IH g' eq_refl). cbn. lia.
Qed.

Lemma take_word_length s w r :
  take_word s = (w, r) -> String.length r <= String.length s.
Proof.
  revert w r. induction s as [| c s IH]; intros w r; cbn [take_word].
  - intros [= <- <-]. reflexivity.
  - destruct (word_char c).
    + destruct (take_word s) as [w' r']. intros [= <- <-].
      specialize (IH w' r' eq_refl). cbn. lia.
    + intros [= <- <-]. reflexivity.
Qed.

Lemma take_unticked_length s w r :
  take_unticked s = (w, r) -> String.length r <= String.length s.
Proof.
  revert w r. induction s as [| c s IH]; intros w r; cbn [take_unticked].
  - intros [= <- <-]. reflexivity.
  - destruct (Ascii.eqb c backtick).
    + intros [= <- <-]. reflexivity.
    + destruct (take_unticked s) as [w' r']. intros [= <- <-].
      specialize (IH w' r' eq_refl). cbn. lia.
Qed.

Lemma bold_consumes : consumes bold.
Proof.
  intros s out r. unfold bold.
  destruct (strip_prefix "**" s) as [s1 |] eqn:E; [| discriminate].
  destruct (until_stars s1) as [[g r'] |] eqn:E'; [| discriminate].
  intros [= <- <-]. apply strip_prefix_length in E.
  apply until_stars_length in E'. lia.
Qed.

Lemma fence_consumes : consumes fence.
Proof.
  intros s out r. unfold fence.
  destruct (strip_prefix "```" s) as [s1 |] eqn:E; [| discriminate].
  destruct (take_word s1) as [w s2] eqn:Ew.
  apply strip_prefix_length in E. apply take_word_length in Ew.
  destruct (strip_prefix nl s2) as [s3 |] eqn:En.
  - apply strip_prefix_length in En.
    destruct (until_fence s3) as [[g r'] |] eqn:E'; [| discriminate].
    intros [= <- <-]. apply until_fence_length in E'. lia.
  - destruct (until_fence s2) as [[g r'] |] eqn:E'; [| discriminate].
    intros [= <- <-]. apply until_fence_length in E'. lia.
Qed.

Lemma inline_consumes : consumes inline.
Proof.
  intros s out r. unfold inline.
  destruct (strip_prefix "`" s) as [s1 |] eqn:E; [| discriminate].
  destruct (take_unticked s1) as [g s2] eqn:Eg.
  destruct (String.eqb g ""); [discriminate |].
  destruct (strip_prefix "`" s2) as [r' |] eqn:E'; [| discriminate].
  intros [= <- <-]. apply strip_prefix_length in E, E'.
  apply take_unticked_length in Eg. cbn in *. lia.
Qed.

Lemma line_break_consumes : consumes line_break.
Proof.
  intros s out r. unfold line_break.
  destruct (strip_prefix nl s) as [r' |] eqn:E; [| discriminate].
  intros [= <- <-]. apply strip_prefix_length in E. cbn in E. lia.
Qed.

Lemma replace_all_enough m :
  consumes m ->
  forall fuel fuel' s,
    String.length s <= fuel -> String.length s <= fuel' ->
    replace_all m fuel s = replace_all m fuel' s.
Proof.
  intros Hm. induction fuel as [| fuel IH]; intros fuel' s H H'.
  - destruct s; [| cbn in H; lia]. destruct fuel'; reflexivity.
  - destruct fuel' as [| fuel'].
    { destruct s; [reflexivity | cbn in H'; lia]. }
    cbn [replace_all]. destruct s as [| c rest]; [reflexivity |].
    cbn [String.length] in H, H'.
    destruct (m (String c rest)) as [[out s'] |] eqn:E.
    + apply Hm in E. cbn [String.length] in E.
      f_equal. apply IH; lia.
    + f_equal. apply IH; lia.
Qed.

Lemma replace_match m s out r :
  consumes m -> m s = Some (out, r) -> replace m s = out +:+ replace m r.
Proof.
  intros Hm E. unfold replace. pose proof (Hm _ _ _ E) as Hlen.
  destruct s as [| c rest]; [cbn in Hlen; lia |].
  cbn [String.length replace_all]. rewrite E. f_equal.
  cbn [String.length] in Hlen. apply replace_all_enough; [exact Hm | lia | lia].
Qed.

Lemma replace_skip m c rest :
  consumes m -> m (String c rest) = None ->
  replace m (String c rest) = String c (replace m rest).
Proof.
  intros Hm E. unfold replace. cbn [String.length replace_all]. rewrite E.
  reflexivity.
Qed.

Lemma replace_empty m : replace m "" = "".
Proof. reflexivity. Qed.

Lemma replace_inert f m a s :
  consumes m -> inert f m -> all_chars f a = true ->
  replace m (a +:+ s) = a +:+ replace m s.
Proof.
  intros Hm Hf. induction a as [| c a IH]; [reflexivity |].
  cbn [all_chars]. intros [Hc Ha]%andb_true_iff.
  change (String c a +:+ s) with (String c (a +:+ s)).
  rewrite (replace_skip m c _ Hm (Hf c _ Hc)).
  change (String c a +:+ replace m s) with (String c (a +:+ replace m s)).
  now rewrite (IH Ha).
Qed.

Lemma append_empty (a : string) : a +:+ "" = a.
Proof.
  induction a as [| c a IH]; [reflexivity |].
  change (String c a +:+ "") with (String c (a +:+ "")). now rewrite IH.
Qed.

Lemma replace_untouched f m a :
  consumes m -> inert f m -> all_chars f a = true -> replace m a = a.
Proof.
  intros Hm Hf Ha. pose proof (replace_inert f m a "" Hm Hf Ha) as H.
  rewrite (append_empty a) in H. rewrite H. unfold replace. cbn [String.length replace_all].
  apply append_empty.
Qed.

Lemma strip_prefix_head x p c rest :
  not_char x c = true -> strip_prefix (String x p) (String c rest) = None.
Proof.
  unfold not_char. intros H. cbn [strip_prefix].
  rewrite Ascii.eqb_sym. now apply negb_true_iff in H as ->.
Qed.

Lemma bold_inert : inert (not_char asterisk) bold.
Proof.
  intros c rest H. unfold bold.
  change "**" with (String asterisk (String asterisk "")).
  now rewrite (strip_prefix_head _ _ _ _ H).
Qed.

Lemma fence_inert : inert (not_char backtick) fence.
Proof.
  intros c rest H. unfold fence.
  change "```" with (String backtick (String backtick (String backtick ""))).
  now rewrite (strip_prefix_head _ _ _ _ H).
Qed.

Lemma inline_inert : inert (not_char backtick) inline.
Proof.
  intros c rest H. unfold inline.
  change "`" with (String backtick "").
  now rewrite (strip_prefix_head _ _ _ _ H).
Qed.

Lemma line_break_inert : inert (not_char line_feed) line_break.
Proof.
  intros c rest H. unfold line_break.
  change nl with (String line_feed "").
  now rewrite (strip_prefix_head _ _ _ _ H).
Qed.

Lemma append_assoc (a b c : string) : (a +:+ b) +:+ c = a +:+ (b +:+ c).
Proof.
  induction a as [| x a IH]; [reflexivity |].
  change ((String x a +:+ b) +:+ c) with (String x ((a +:+ b) +:+ c)).
  now rewrite IH.
Qed.

Lemma all_chars_impl (f g : Ascii.ascii -> bool) s :
  (forall c, f c = true -> g c = true) -> all_chars f s = true -> all_chars g s = true.
Proof.
  intros H. induction s as [| c s IH]; [reflexivity |].
  cbn [all_chars]. intros [Hc Hs]%andb_true_iff. now rewrite (H c Hc), (IH Hs).
Qed.

Lemma all_chars_app f a b :
  all_chars f (a +:+ b) = all_chars f a && all_chars f b.
Proof.
  induction a as [| c a IH]; [reflexivity |].
  change (String c a +:+ b) with (String c (a +:+ b)).
  cbn [all_chars]. now rewrite IH, andb_assoc.
Qed.

Lemma plain_parts c :
  plain c = true ->
  not_char asterisk c = true /\ not_char backtick c = true /\ not_char line_feed c = true.
Proof.
  unfold plain, unmarked, not_char.
  intros [[H1 H2]%andb_true_iff H3]%andb_true_iff. auto.
Qed.

(** X12. [renderMessage] escapes nothing: a text without asterisk,
    backtick and line feed comes out as it went in, angle brackets and
    all. *)
Theorem renderMessage_plain text :
  all_chars plain text = true -> renderMessage text = text.
Proof.
  intros H. unfold renderMessage.
  rewrite (replace_untouched _ bold text bold_consumes bold_inert)
    by (apply (all_chars_impl plain); [apply plain_parts | exact H]).
  rewrite (replace_untouched _ fence text fence_consumes fence_inert)
    by (apply (all_chars_impl plain); [apply plain_parts | exact H]).
  rewrite (replace_untouched _ inline text inline_consumes inline_inert)
    by (apply (all_chars_impl plain); [apply plain_parts | exact H]).
  apply (replace_untouched _ line_break text line_break_consumes line_break_inert).
  apply (all_chars_impl plain); [apply plain_parts | exact H].
Qed.

Lemma renderMessage_plain_witness :
  all_chars plain "<b>hello</b> & <i>world</i>" = true /\
  renderMessage "<b>hello</b> & <i>world</i>" = "<b>hello</b> & <i>world</i>".
Proof.
  split; [reflexivity |].
  exact (renderMessage_plain "<b>hello</b> & <i>world</i>" eq_refl).
Defined.



Lemma strip_prefix_extend p s r :
  all_chars (not_char asterisk) p = true ->
  strip_prefix p s = None ->
  strip_prefix p (s +:+ String asterisk r) = None.
Proof.
  revert s. induction p as [| a p IH]; intros s Hp; [discriminate |].
  cbn [all_chars] in Hp. apply andb_true_iff in Hp as [Ha Hp].
  destruct s as [| b s].
  - intros _. change ("" +:+ String asterisk r) with (String asterisk r).
    cbn [strip_prefix]. unfold not_char in Ha. apply negb_true_iff in Ha.
    now rewrite Ha.
  - change (String b s +:+ ?x) with (String b (s +:+ x)). cbn [strip_prefix].
    destruct (Ascii.eqb a b); [now apply IH | reflexivity].
Qed.

Lemma strip_any_extend ws s r :
  List.forallb (all_chars (not_char asterisk)) ws = true ->
  strip_any ws s = None ->
  strip_any ws (s +:+ String asterisk r) = None.
Proof.
  induction ws as [| w ws IH]; [reflexivity |].
  cbn [List.forallb strip_any]. intros [Hw Hws]%andb_true_iff.
  destruct (strip_prefix w s) eqn:E; [discriminate |].
  intros H. rewrite (strip_prefix_extend w s r Hw E). now apply IH.
Qed.

Lemma terminator_extend c t r :
  strip_any line_terminators (String c t) = None ->
  strip_any line_terminators (String c (t +:+ String asterisk r)) = None.
Proof.
  intros H. change (String c (t +:+ String asterisk r))
              with (String c t +:+ String asterisk r).
  now apply strip_any_extend.
Qed.

Lemma one_line_head c t :
  one_line (String c t) = true ->
  strip_any line_terminators (String c t) = None /\ one_line t = true.
Proof.
  cbn [one_line]. intros [H1 H2]%andb_true_iff. split; [| exact H2].
  destruct (strip_any line_terminators (String c t)); [discriminate | reflexivity].
Qed.

Lemma until_stars_found t r :
  all_chars (not_char asterisk) t = true ->
  one_line t = true ->
  until_stars (t +:+ String asterisk (String asterisk r)) = Some (t, r).
Proof.
  induction t as [| c t IH]; intros Ht Hl.
  - cbn. reflexivity.
  - cbn [all_chars] in Ht. apply andb_true_iff in Ht as [Hc Ht].
    apply one_line_head in Hl as [Hterm Hl].
    change (String c t +:+ ?x) with (String c (t +:+ x)).
    cbn [until_stars].
    change "**" with (String asterisk (String asterisk "")).
    rewrite (strip_prefix_head _ _ _ _ Hc).
    rewrite (terminator_extend c t _ Hterm).
    now rewrite (IH Ht Hl).
Qed.

Lemma one_line_no_line_feed t :
  one_line t = true -> all_chars (not_char line_feed) t = true.
Proof.
  induction t as [| c t IH]; [reflexivity |].
  intros [Hterm Hl]%one_line_head. cbn [all_chars]. rewrite (IH Hl), andb_true_r.
  unfold not_char. destruct (Ascii.eqb c line_feed) eqn:E; [| reflexivity].
  apply Ascii.eqb_eq in E. subst c. cbn in Hterm. discriminate Hterm.
Qed.

Lemma unmarked_parts c :
  unmarked c = true -> not_char asterisk c = true /\ not_char backtick c = true.
Proof. unfold unmarked, not_char. now intros [H1 H2]%andb_true_iff. Qed.

Lemma plain_not x a :
  x = asterisk \/ x = backtick \/ x = line_feed ->
  all_chars plain a = true -> all_chars (not_char x) a = true.
Proof.
  intros Hx Ha. apply (all_chars_impl plain); [| exact Ha].
  intros c Hc. apply plain_parts in Hc. destruct Hx as [-> | [-> | ->]]; tauto.
Qed.

Lemma unmarked_not x t :
  x = asterisk \/ x = backtick ->
  all_chars unmarked t = true -> all_chars (not_char x) t = true.
Proof.
  intros Hx Ht. apply (all_chars_impl unmarked); [| exact Ht].
  intros c Hc. apply unmarked_parts in Hc. destruct Hx as [-> | ->]; tauto.
Qed.

(** The last three passes leave text without backtick and line feed as
    it is. *)
Lemma later_passes r :
  all_chars (not_char backtick) r = true ->
  all_chars (not_char line_feed) r = true ->
  replace line_break (replace inline (replace fence r)) = r.
Proof.
  intros Hb Hl.
  rewrite (replace_untouched _ fence r fence_consumes fence_inert Hb).
  rewrite (replace_untouched _ inline r inline_consumes inline_inert Hb).
  apply (replace_untouched _ line_break r line_break_consumes line_break_inert Hl).
Qed.

(** X14. A one-line run without asterisk and backtick, set between
    two pairs of asterisks in otherwise plain text, comes out between
    [<strong>] and [</strong>], and the text around it unchanged. *)
Theorem renderMessage_bold a t b :
  all_chars plain a = true ->
  all_chars unmarked t = true ->
  one_line t = true ->
  all_chars plain b = true ->
  renderMessage (a +:+ "**" +:+ t +:+ "**" +:+ b)
  = a +:+ "<strong>" +:+ t +:+ "</strong>" +:+ b.
Proof.
  intros Ha Ht Hl Hb.
  assert (Hstep : replace bold (a +:+ "**" +:+ t +:+ "**" +:+ b)
                  = a +:+ "<strong>" +:+ t +:+ "</strong>" +:+ b).
  { rewrite (replace_inert _ bold a _ bold_consumes bold_inert
               (plain_not asterisk a (or_introl eq_refl) Ha)).
    f_equal.
    assert (E : bold ("**" +:+ t +:+ "**" +:+ b)
                = Some ("<strong>" +:+ t +:+ "</strong>", b)).
    { unfold bold.
      change (strip_prefix "**" ("**" +:+ t +:+ "**" +:+ b))
        with (Some (t +:+ "**" +:+ b)).
      cbv beta iota.
      change ("**" +:+ b) with (String asterisk (String asterisk b)).
      now rewrite (until_stars_found t b
                     (unmarked_not asterisk t (or_introl eq_refl) Ht) Hl). }
    rewrite (replace_match _ _ _ _ bold_consumes E).
    rewrite (replace_untouched _ bold b bold_consumes bold_inert
               (plain_not asterisk b (or_introl eq_refl) Hb)).
    now rewrite !append_assoc. }
  unfold renderMessage. rewrite Hstep. apply later_passes.
  - rewrite !all_chars_app.
    rewrite (plain_not backtick a), (plain_not backtick b),
            (unmarked_not backtick t); auto.
  - rewrite !all_chars_app.
    rewrite (plain_not line_feed a), (plain_not line_feed b),
            (one_line_no_line_feed t); auto.
Qed.

Lemma renderMessage_bold_witness :
  all_chars plain "Done: " = true /\
  all_chars unmarked "Code Generated Successfully!" = true /\
  one_line "Code Generated Successfully!" = true /\
  all_chars plain " ok" = true /\
  renderMessage "Done: **Code Generated Successfully!** ok"
  = "Done: <strong>Code Generated Successfully!</strong> ok".
Proof.
  split; [reflexivity | split; [reflexivity | split; [reflexivity |
    split; [reflexivity |]]]].
  exact (renderMessage_bold "Done: " "Code Generated Successfully!" " ok"
           eq_refl eq_refl eq_refl eq_refl).
Defined.

Lemma take_unticked_found t r :
  all_chars (not_char backtick) t = true ->
  take_unticked (t +:+ String backtick r) = (t, String backtick r).
Proof.
  induction t as [| c t IH]; intros Ht.
  - reflexivity.
  - cbn [all_chars] in Ht. apply andb_true_iff in Ht as [Hc Ht].
    change (String c t +:+ ?x) with (String c (t +:+ x)).
    cbn [take_unticked]. unfold not_char in Hc. apply negb_true_iff in Hc.
    rewrite Hc. now rewrite (IH Ht).
Qed.

(** A backtick that no second and third backtick follow starts no
    fence. *)
Lemma lone_tick c rest :
  not_char backtick c = true -> fence (String backtick (String c rest)) = None.
Proof.
  intros Hc. unfold fence. cbn -[Ascii.eqb backtick].
  unfold not_char in Hc. apply negb_true_iff in Hc.
  change (Ascii.Ascii false false false false false true true false) with backtick.
  rewrite Ascii.eqb_refl. rewrite Ascii.eqb_sym, Hc. reflexivity.
Qed.

Lemma last_tick : fence (String backtick "") = None.
Proof. reflexivity. Qed.

(** X15. A non-empty plain run set between two backticks in otherwise
    plain text comes out inside [<code class="inline-code">], and the
    text around it unchanged. *)
Theorem renderMessage_inline a t b :
  all_chars plain a = true ->
  all_chars plain t = true ->
  t <> "" ->
  all_chars plain b = true ->
  renderMessage (a +:+ "`" +:+ t +:+ "`" +:+ b)
  = a +:+ "<code class=" +:+ dq +:+ "inline-code" +:+ dq +:+ ">" +:+ t +:+
    "</code>" +:+ b.
Proof.
  intros Ha Ht Hne Hb.
  assert (Hstar : all_chars (not_char asterisk) (a +:+ "`" +:+ t +:+ "`" +:+ b) = true).
  { rewrite !all_chars_app.
    rewrite (plain_not asterisk a), (plain_not asterisk b), (plain_not asterisk t); auto. }
  assert (Hfence : replace fence (a +:+ "`" +:+ t +:+ "`" +:+ b)
                   = a +:+ "`" +:+ t +:+ "`" +:+ b).
  { rewrite (replace_inert _ fence a _ fence_consumes fence_inert
               (plain_not backtick a (or_intror (or_introl eq_refl)) Ha)).
    f_equal. destruct t as [| c t]; [contradiction |].
    cbn [all_chars] in Ht. apply andb_true_iff in Ht as [Hc Ht].
    change ("`" +:+ String c t +:+ "`" +:+ b)
      with (String backtick (String c (t +:+ "`" +:+ b))).
    rewrite (replace_skip fence _ _ fence_consumes
               (lone_tick c _ (proj1 (proj2 (plain_parts c Hc))))).
    f_equal.
    change (String c (t +:+ "`" +:+ b)) with (String c t +:+ "`" +:+ b).
    rewrite (replace_inert _ fence (String c t) _ fence_consumes fence_inert).
    2:{ cbn [all_chars]. rewrite (proj1 (proj2 (plain_parts c Hc))).
        now rewrite (plain_not backtick t (or_intror (or_introl eq_refl)) Ht). }
    f_equal. change ("`" +:+ b) with (String backtick b).
    destruct b as [| d b].
    - reflexivity.
    - cbn [all_chars] in Hb. apply andb_true_iff in Hb as [Hd Hb].
      rewrite (replace_skip fence _ _ fence_consumes
                 (lone_tick d _ (proj1 (proj2 (plain_parts d Hd))))).
      f_equal.
      apply (replace_untouched _ fence (String d b) fence_consumes fence_inert).
      cbn [all_chars]. rewrite (proj1 (proj2 (plain_parts d Hd))).
      now rewrite (plain_not backtick b (or_intror (or_introl eq_refl)) Hb). }
  assert (Hinline : replace inline (a +:+ "`" +:+ t +:+ "`" +:+ b)
                    = a +:+ "<code class=" +:+ dq +:+ "inline-code" +:+ dq +:+ ">"
                      +:+ t +:+ "</code>" +:+ b).
  { rewrite (replace_inert _ inline a _ inline_consumes inline_inert
               (plain_not backtick a (or_intror (or_introl eq_refl)) Ha)).
    f_equal.
    assert (E : inline ("`" +:+ t +:+ "`" +:+ b)
                = Some ("<code class=" +:+ dq +:+ "inline-code" +:+ dq +:+ ">" +:+
                        t +:+ "</code>", b)).
    { unfold inline.
      change (strip_prefix "`" ("`" +:+ t +:+ "`" +:+ b)) with (Some (t +:+ "`" +:+ b)).
      cbv beta iota.
      change ("`" +:+ b) with (String backtick b).
      rewrite (take_unticked_found t b
                 (plain_not backtick t (or_intror (or_introl eq_refl)) Ht)).
      destruct (String.eqb_spec t "") as [-> | _]; [contradiction |].
      change (strip_prefix "`" (String backtick b)) with (Some b). reflexivity. }
    rewrite (replace_match _ _ _ _ inline_consumes E).
    rewrite (replace_untouched _ inline b inline_consumes inline_inert
               (plain_not backtick b (or_intror (or_introl eq_refl)) Hb)).
    now rewrite !append_assoc. }
  unfold renderMessage.
  rewrite (replace_untouched _ bold _ bold_consumes bold_inert Hstar).
  rewrite Hfence, Hinline.
  apply (replace_untouched _ line_break _ line_break_consumes line_break_inert).
  rewrite !all_chars_app.
  rewrite (plain_not line_feed a), (plain_not line_feed b), (plain_not line_feed t); auto.
Qed.

Lemma renderMessage_inline_witness :
  all_chars plain "run " = true /\
  all_chars plain "npm start" = true /\
  "npm start" <> "" /\
  all_chars plain " now" = true /\
  renderMessage "run `npm start` now"
  = "run <code class=" +:+ dq +:+ "inline-code" +:+ dq +:+ ">npm start</code> now".
Proof.
  assert (Hne : "npm start" <> "") by discriminate.
  split; [reflexivity | split; [reflexivity | split; [exact Hne |
    split; [reflexivity |]]]].
  exact (renderMessage_inline "run " "npm start" " now" eq_refl eq_refl Hne eq_refl).
Defined.














End WorkspaceProps.
